(** * satellity: users, sessions and token authentication

    A shallow embedding of [internal/models/user.go],
    [internal/models/session.go] and the [configs] package.

    Go strings are modelled as [string] (sequences of bytes); the
    functions of package [strings] are given on ASCII text.  A Go
    result pair [(v, err)] is a pair of options, [None] standing for
    [nil].  Code that talks to the database, reads the clock or draws
    random identifiers runs in the monad [M] over a [World]. *)

From Stdlib Require Import ZArith NArith Lia List Ascii String Bool.
From stdpp Require Import base option list strings gmap.

Local Open Scope string_scope.
Local Open Scope Z_scope.

(** ** Package [strings] *)

Module strings.

Definition code (c : ascii) : Z := Z.of_nat (nat_of_ascii c).

(** [unicode.IsSpace] on ASCII: tab, line feed, vertical tab, form
    feed, carriage return and space. *)
Definition isSpace (c : ascii) : bool :=
  ((9 <=? code c) && (code c <=? 13)) || (code c =? 32).

Fixpoint TrimLeft (s : string) : string :=
  match s with
  | String c rest => if isSpace c then TrimLeft rest else s
  | EmptyString => EmptyString
  end.

Fixpoint TrimRight (s : string) : string :=
  match s with
  | String c rest =>
      match TrimRight rest with
      | EmptyString => if isSpace c then EmptyString else String c EmptyString
      | rest' => String c rest'
      end
  | EmptyString => EmptyString
  end.

Definition TrimSpace (s : string) : string := TrimRight (TrimLeft s).

Definition lowerChar (c : ascii) : ascii :=
  if (65 <=? code c) && (code c <=? 90)
  then ascii_of_nat (nat_of_ascii c + 32)
  else c.

Fixpoint ToLower (s : string) : string :=
  match s with
  | String c rest => String (lowerChar c) (ToLower rest)
  | EmptyString => EmptyString
  end.

(** Go's [len(s)]. *)
Definition len (s : string) : Z := Z.of_nat (String.length s).

End strings.

(** ** Package [encoding/hex] *)

Module hex.

Definition fromHexChar (c : ascii) : option Z :=
  let n := strings.code c in
  if (48 <=? n) && (n <=? 57) then Some (n - 48)
  else if (97 <=? n) && (n <=? 102) then Some (n - 97 + 10)
  else if (65 <=? n) && (n <=? 70) then Some (n - 65 + 10)
  else None.

(** [hex.DecodeString]: [None] is the error result (odd length or a
    byte that is no hexadecimal digit). *)
Fixpoint DecodeString (s : string) : option (list Z) :=
  match s with
  | EmptyString => Some []
  | String _ EmptyString => None
  | String a (String b rest) =>
      match fromHexChar a, fromHexChar b with
      | Some h, Some l =>
          match DecodeString rest with
          | Some bs => Some (h * 16 + l :: bs)
          | None => None
          end
      | _, _ => None
      end
  end.

End hex.

(** ** Package [uuid]: a UUID is a 128-bit value *)

Module uuid.

Definition UUID := N.

Definition Nil : UUID := 0%N.

Definition hexDigit (n : N) : ascii :=
  if (n <? 10)%N then ascii_of_N (48 + n) else ascii_of_N (87 + n).

(** The [k] low hexadecimal digits of [n], most significant first. *)
Fixpoint hexDigits (k : nat) (n : N) (acc : string) : string :=
  match k with
  | O => acc
  | S k' => hexDigits k' (N.shiftr n 4) (String (hexDigit (N.land n 15)) acc)
  end.

(** [UUID.String]: the canonical form 8-4-4-4-12. *)
Definition String (u : UUID) : string :=
  hexDigits 8 (N.shiftr u 96)
    ("-" ++ hexDigits 4 (N.shiftr u 80)
       ("-" ++ hexDigits 4 (N.shiftr u 64)
          ("-" ++ hexDigits 4 (N.shiftr u 48)
             ("-" ++ hexDigits 12 u "")))).

End uuid.

(** ** Errors

    [session.Error] values are the constructors from [BadDataError]
    on; the others are errors of the libraries. *)

Inductive error : Type :=
  | DriverError (msg : string)        (* database/sql: a failed statement *)
  | ErrNoRows                         (* sql.ErrNoRows *)
  | HexError                          (* encoding/hex *)
  | X509Error                         (* crypto/x509 *)
  | BcryptError                       (* bcrypt *)
  | ErrTokenMalformed                 (* jwt: the token does not parse *)
  | ErrClaimsInvalid                  (* jwt: exp, iat or nbf rejected *)
  | ValidationError (inner : error)   (* jwt.ValidationError wrapping inner *)
  | ErrInvalidKeyType                 (* jwt *)
  | ErrInvalidKey
  | ErrSignatureInvalid
  | NoneSignatureTypeDisallowedError
  | BadDataError
  | PasswordTooSimpleError
  | IdentityNonExistError
  | InvalidPasswordError
  | InvalidEmailFormatError (email : string)
  | TransactionError (cause : error)
  | ServerError (cause : error).

(** The type assertion [err.(session.Error)]. *)
Definition isSessionError (e : error) : bool :=
  match e with
  | BadDataError | PasswordTooSimpleError | IdentityNonExistError
  | InvalidPasswordError | InvalidEmailFormatError _
  | TransactionError _ | ServerError _ => true
  | _ => false
  end.

(** ** Data model *)

Record NullString := { String_ : string; Valid : bool }.

Definition Time := Z.

Record User := {
  UserID : string;
  Email : NullString;
  Username : string;
  Nickname : string;
  Biography : string;
  EncryptedPassword : NullString;
  GithubID : NullString;
  GroupsCount : Z;
  CreatedAt : Time;
  UpdatedAt : Time;
  SessionID : string;
  isNew : bool
}.

Record Session := {
  sSessionID : string;
  sUserID : string;
  Secret : string;
  sCreatedAt : Time
}.

Definition nullString : NullString := {| String_ := ""; Valid := false |}.

(** The zero values [User{}] and [Session{}]. *)
Definition zeroUser : User :=
  {| UserID := ""; Email := nullString; Username := ""; Nickname := "";
     Biography := ""; EncryptedPassword := nullString;
     GithubID := nullString; GroupsCount := 0; CreatedAt := 0;
     UpdatedAt := 0; SessionID := ""; isNew := false |}.

Definition zeroSession : Session :=
  {| sSessionID := ""; sUserID := ""; Secret := ""; sCreatedAt := 0 |}.

Definition withSessionID (u : User) (sid : string) : User :=
  {| UserID := UserID u; Email := Email u; Username := Username u;
     Nickname := Nickname u; Biography := Biography u;
     EncryptedPassword := EncryptedPassword u; GithubID := GithubID u;
     GroupsCount := GroupsCount u; CreatedAt := CreatedAt u;
     UpdatedAt := UpdatedAt u; SessionID := sid; isNew := isNew u |}.




(** ** The world: database, clock and random source *)

(** The statements the models send to the database. *)
Inductive Statement : Type :=
  | InsertUser (u : User)
  | InsertSession (s : Session)
  | UpdateProfileOf (id nickname biography : string) (t : Time)
  | SelectUserByID (id : string)
  | SelectUserByIdentity (identity : string)
  | SelectSession (uid sid : string).

(** [users] and [sessions] are the rows of the two tables, oldest
    first.  [faults] is what the connection will do to the coming
    statements, one entry per statement: [Some msg] makes the statement
    fail with a driver error, [None] (or no entry) lets it run.
    [trace] records the statements sent so far, newest first.  [now]
    is the reading of [time.Now()] and [entropy] the values [uuid.NewV4]
    will draw. *)
Record World := {
  users : list User;
  sessions : list Session;
  faults : list (option string);
  trace : list Statement;
  now : Time;
  entropy : list uuid.UUID
}.

Definition setTables (us : list User) (ss : list Session) (w : World) : World :=
  {| users := us; sessions := ss; faults := faults w; trace := trace w;
     now := now w; entropy := entropy w |}.

Definition setEntropy (e : list uuid.UUID) (w : World) : World :=
  {| users := users w; sessions := sessions w; faults := faults w;
     trace := trace w; now := now w; entropy := e |}.

(** Sending one statement: it is recorded and the connection's next
    verdict is consumed. *)
Definition send (st : Statement) (w : World) : option string * World :=
  let w' v fs := (v, {| users := users w; sessions := sessions w; faults := fs;
                        trace := st :: trace w; now := now w;
                        entropy := entropy w |}) in
  match faults w with
  | [] => w' None []
  | v :: fs => w' v fs
  end.

(** A Go call either returns or panics. *)
Inductive Res (A : Type) : Type :=
  | Val (a : A)
  | Panic.
Arguments Val {A} a.
Arguments Panic {A}.

Definition M (A : Type) : Type := World -> Res A * World.

Definition ret {A} (a : A) : M A := fun w => (Val a, w).

Definition bind {A B} (m : M A) (k : A -> M B) : M B :=
  fun w => match m w with
           | (Val a, w') => k a w'
           | (Panic, w') => (Panic, w')
           end.

Definition panic {A} : M A := fun w => (Panic, w).

Notation "x <- m ; k" := (bind m (fun x => k))
  (at level 20, m at level 100, k at level 200, only parsing).
Notation "' pat <- m ; k" := (bind m (fun x => match x with pat => k end))
  (at level 20, pat pattern, m at level 100, k at level 200, only parsing).

(** [time.Now()]. *)
Definition time_Now : M Time := fun w => (Val (now w), w).

(** [uuid.Must(uuid.NewV4())]: [Must] panics when the random source
    fails, here when [entropy] is used up. *)
Definition uuid_Must_NewV4 : M uuid.UUID := fun w =>
  match entropy w with
  | u :: rest => (Val u, setEntropy rest w)
  | [] => (Panic, w)
  end.

(** Modelled from the spec: [durable.Database.RunInTransaction] is not
    among the sources.  It runs [fn] in a transaction with automatic
    commit or rollback: when [fn] returns an error (or panics) the
    tables are as they were when the transaction began, and the error
    of [fn] is the error returned.  The first component of [fn]'s
    result stands for the variables the Go closure captures and
    assigns; they keep their values whatever the outcome. *)
Definition RunInTransaction {A} (fn : M (A * option error)) : M (A * option error) :=
  fun w => match fn w with
           | (Val (a, None), w') => (Val (a, None), w')
           | (Val (a, Some e), w') =>
               (Val (a, Some e), setTables (users w) (sessions w) w')
           | (Panic, w') => (Panic, setTables (users w) (sessions w) w')
           end.

(** ** Rows and the constraints of the DDL *)

Module ddl.

(** [VARCHAR(n)]: a longer value is an error unless the excess is all
    spaces, which is cut off. *)
Fixpoint allSpaces (s : string) : bool :=
  match s with
  | String c rest => (strings.code c =? 32) && allSpaces rest
  | EmptyString => true
  end.

Fixpoint take (n : nat) (s : string) : string :=
  match n, s with
  | S n', String c rest => String c (take n' rest)
  | _, _ => EmptyString
  end.

Fixpoint drop (n : nat) (s : string) : string :=
  match n, s with
  | S n', String _ rest => drop n' rest
  | _, _ => s
  end.

Definition varchar (n : nat) (s : string) : option string :=
  if (String.length s <=? n)%nat then Some s
  else if allSpaces (drop n s) then Some (take n s) else None.

Definition varcharNull (n : nat) (s : NullString) : option NullString :=
  if Valid s
  then match varchar n (String_ s) with
       | Some s' => Some {| String_ := s'; Valid := true |}
       | None => None
       end
  else Some s.

Definition isAlnum (c : ascii) : bool :=
  let n := strings.code (strings.lowerChar c) in
  ((48 <=? n) && (n <=? 57)) || ((97 <=? n) && (n <=? 122)).

Definition isWord (c : ascii) : bool :=
  isAlnum c || (strings.code c =? 95).

Fixpoint allWord (s : string) : bool :=
  match s with
  | String c rest => isWord c && allWord rest
  | EmptyString => true
  end.

(** [CHECK (username ~* '^[a-z0-9][a-z0-9_]{3,63}$')], matched without
    regard to case. *)
Definition usernameCheck (s : string) : bool :=
  match s with
  | String c rest =>
      isAlnum c && allWord rest
      && (3 <=? String.length rest)%nat && (String.length rest <=? 63)%nat
  | EmptyString => false
  end.

(** A unique index over a nullable text column: NULLs never collide. *)
Definition collides (f : string -> string) (a b : NullString) : bool :=
  Valid a && Valid b && String.eqb (f (String_ a)) (f (String_ b)).

Definition notNull (s : string) : NullString := {| String_ := s; Valid := true |}.

(** The row the table keeps for [u], or [None] when a length limit is
    exceeded.  [SessionID] and [isNew] are no columns. *)
Definition userRow (u : User) : option User :=
  id ← varchar 36 (UserID u);
  email ← varcharNull 512 (Email u);
  username ← varchar 64 (Username u);
  nickname ← varchar 64 (Nickname u);
  biography ← varchar 2048 (Biography u);
  pw ← varcharNull 1024 (EncryptedPassword u);
  gh ← varcharNull 1024 (GithubID u);
  Some {| UserID := id; Email := email; Username := username;
          Nickname := nickname; Biography := biography;
          EncryptedPassword := pw; GithubID := gh;
          GroupsCount := GroupsCount u; CreatedAt := CreatedAt u;
          UpdatedAt := UpdatedAt u; SessionID := ""; isNew := false |}.

(** Primary key, the [CHECK] on [username], and the unique indexes on
    [github_id], [LOWER(email)] and [LOWER(username)]. *)
Definition userAccepted (rows : list User) (r : User) : bool :=
  usernameCheck (Username r)
  && forallb (fun x =>
       negb (String.eqb (UserID x) (UserID r))
       && negb (collides (fun s => s) (GithubID x) (GithubID r))
       && negb (collides strings.ToLower (Email x) (Email r))
       && negb (String.eqb (strings.ToLower (Username x))
                           (strings.ToLower (Username r)))) rows.

Definition sessionRow (s : Session) : option Session :=
  sid ← varchar 36 (sSessionID s);
  uid ← varchar 36 (sUserID s);
  secret ← varchar 1024 (Secret s);
  Some {| sSessionID := sid; sUserID := uid; Secret := secret;
          sCreatedAt := sCreatedAt s |}.

Definition sessionAccepted (rows : list Session) (r : Session) : bool :=
  forallb (fun x => negb (String.eqb (sSessionID x) (sSessionID r))) rows.

End ddl.

(** ** The driver: statements against the tables *)

Module sql.

(** What [QueryRowContext] hands to [Scan]. *)
Inductive Row (A : Type) : Type :=
  | RowOf (a : A)
  | NoRows
  | Failed (msg : string).
Arguments RowOf {A} a.
Arguments NoRows {A}.
Arguments Failed {A} msg.

Definition QueryRow {A} (st : Statement) (rows : World -> option A) : M (Row A) :=
  fun w => match send st w with
           | (Some msg, w') => (Val (Failed msg), w')
           | (None, w') =>
               (Val (match rows w with Some a => RowOf a | None => NoRows end), w')
           end.

(** [SELECT ... FROM users WHERE user_id=$1] *)
Definition userByID (id : string) (w : World) : option User :=
  find (fun r => String.eqb (UserID r) id) (users w).

(** [SELECT ... FROM users WHERE username=$1 OR email=$1 LIMIT 1]; the
    comparison with a NULL email is not true. *)
Definition userByIdentity (identity : string) (w : World) : option User :=
  find (fun r => String.eqb (Username r) identity
                 || (Valid (Email r) && String.eqb (String_ (Email r)) identity))
       (users w).

(** [SELECT ... FROM sessions WHERE user_id=$1 AND session_id=$2] *)
Definition sessionByIDs (uid sid : string) (w : World) : option Session :=
  find (fun s => String.eqb (sUserID s) uid && String.eqb (sSessionID s) sid)
       (sessions w).

(** [INSERT INTO users(...) VALUES (...)] *)
Definition InsertIntoUsers (u : User) : M (option error) :=
  fun w => match send (InsertUser u) w with
           | (Some msg, w') => (Val (Some (DriverError msg)), w')
           | (None, w') =>
               match ddl.userRow u with
               | Some r =>
                   if ddl.userAccepted (users w) r
                   then (Val None, setTables (users w ++ [r]) (sessions w) w')
                   else (Val (Some (DriverError "constraint violated")), w')
               | None => (Val (Some (DriverError "value too long")), w')
               end
           end.

(** [INSERT INTO sessions(...) VALUES(...)] *)
Definition InsertIntoSessions (s : Session) : M (option error) :=
  fun w => match send (InsertSession s) w with
           | (Some msg, w') => (Val (Some (DriverError msg)), w')
           | (None, w') =>
               match ddl.sessionRow s with
               | Some r =>
                   if ddl.sessionAccepted (sessions w) r
                   then (Val None, setTables (users w) (sessions w ++ [r]) w')
                   else (Val (Some (DriverError "constraint violated")), w')
               | None => (Val (Some (DriverError "value too long")), w')
               end
           end.


End sql.

(** ** The libraries the models call *)

Inductive PublicKey : Type :=
  | ECDSAPublicKey (der : list Z)
  | RSAPublicKey (der : list Z)
  | DSAPublicKey (der : list Z)
  | Ed25519PublicKey (der : list Z).

(** The signing-method families of jwt-go; [alg] is the name in the
    token's header. *)
Inductive SigningMethod : Type :=
  | SigningMethodECDSA (alg : string)
  | SigningMethodHMAC (alg : string)
  | SigningMethodRSA (alg : string)
  | SigningMethodRSAPSS (alg : string)
  | SigningMethodNone.

(** A decoded JSON value of [jwt.MapClaims]; numbers and composite
    values carry their [fmt.Sprint] rendering. *)
Inductive JSONValue : Type :=
  | JString (s : string)
  | JNumber (printed : string)
  | JBool (b : bool)
  | JNull
  | JComposite (printed : string).

Record Token := {
  Method : SigningMethod;
  Claims : gmap string JSONValue;
  SigningString : string;
  Signature : string;
  TokenValid : bool
}.

(** What the embedding takes from outside the repository's sources:
    the cryptography, the token and UUID parsers, and the helper
    [validateEmailFormat] of package [models], whose file is not among
    the sources. *)
Class Externals := {
  (* crypto/x509: [None] is the error result *)
  x509_ParsePKIXPublicKey : list Z -> option PublicKey;
  (* jwt-go: split, decode and look up the method; [None] is an error *)
  jwt_ParseUnverified : string -> option Token;
  (* jwt.MapClaims.Valid at a reading of the clock *)
  jwt_ClaimsValid : gmap string JSONValue -> Time -> bool;
  (* signature checks: method name, key, signing string, signature *)
  ecdsa_Verify : string -> list Z -> string -> string -> bool;
  rsa_Verify : string -> list Z -> string -> string -> bool;
  (* bcrypt: password and cost; [None] is the error result *)
  bcrypt_GenerateFromPassword : string -> Z -> option string;
  (* bcrypt: hash and password; [true] when err == nil *)
  bcrypt_CompareHashAndPassword : string -> string -> bool;
  (* uuid.FromString: the value and the error *)
  uuid_FromString : string -> uuid.UUID * option error;
  (* models.validateEmailFormat *)
  validateEmailFormat : string -> option error
}.

(** ** Package [jwt] *)

Module jwt.
Section Parse.
Context `{Externals}.

(** [SigningMethod.Verify].  The keys of this program are [nil] or a
    key parsed by crypto/x509: never the byte slice the HMAC family
    asks for, nor the constant that unlocks the method none. *)
Definition Verify (m : SigningMethod) (signingString signature : string)
    (key : option PublicKey) : option error :=
  match m with
  | SigningMethodECDSA alg =>
      match key with
      | Some (ECDSAPublicKey k) =>
          if ecdsa_Verify alg k signingString signature
          then None else Some ErrSignatureInvalid
      | _ => Some ErrInvalidKeyType
      end
  | SigningMethodRSA alg =>
      match key with
      | Some (RSAPublicKey k) =>
          if rsa_Verify alg k signingString signature
          then None else Some ErrSignatureInvalid
      | _ => Some ErrInvalidKeyType
      end
  | SigningMethodRSAPSS alg =>
      match key with
      | Some (RSAPublicKey k) =>
          if rsa_Verify alg k signingString signature
          then None else Some ErrSignatureInvalid
      | _ => Some ErrInvalidKey
      end
  | SigningMethodHMAC _ => Some ErrInvalidKeyType
  | SigningMethodNone => Some NoneSignatureTypeDisallowedError
  end.

Definition markValid (t : Token) : Token :=
  {| Method := Method t; Claims := Claims t; SigningString := SigningString t;
     Signature := Signature t; TokenValid := true |}.

(** [jwt.Parse]: decode without trusting, ask [keyFunc] for the key,
    validate the claims, verify the signature.  [S] is the type of the
    variables [keyFunc] captures and assigns, [s0] their value before
    the call. *)
Definition Parse {S : Type} (tokenString : string)
    (keyFunc : Token -> M (S * (option PublicKey * option error))) (s0 : S)
  : M (S * (option Token * option error)) :=
  match jwt_ParseUnverified tokenString with
  | None => ret (s0, (None, Some (ValidationError ErrTokenMalformed)))
  | Some token =>
      '(s, (key, err)) <- keyFunc token;
      match err with
      | Some e => ret (s, (Some token, Some (ValidationError e)))
      | None =>
          t <- time_Now;
          let claimsErr :=
            if jwt_ClaimsValid (Claims token) t then None else Some ErrClaimsInvalid in
          match Verify (Method token) (SigningString token) (Signature token) key,
                claimsErr with
          | Some e, _ => ret (s, (Some token, Some (ValidationError e)))
          | None, Some e => ret (s, (Some token, Some (ValidationError e)))
          | None, None => ret (s, (Some (markValid token), None))
          end
      end
  end.

End Parse.
End jwt.

(** [fmt.Sprint(claims[k])]; a missing key reads as [nil]. *)
Definition Sprint (v : option JSONValue) : string :=
  match v with
  | Some (JString s) => s
  | Some (JNumber p) => p
  | Some (JBool true) => "true"
  | Some (JBool false) => "false"
  | Some (JComposite p) => p
  | Some JNull | None => "<nil>"
  end.

(** ** Package [configs] *)

Module configs.

(** The fields of [Option] that the models read. *)
Record Option := {
  Name : string;
  Operators : list string;
  Environment : string;
  OperatorSet : gmap string bool
}.

Definition zeroOption : Option :=
  {| Name := ""; Operators := []; Environment := ""; OperatorSet := ∅ |}.

(** [Init] after the file is read and parsed: [options] is the result
    of [yaml.Unmarshal].  The loop over [opt.Operators] is the fold. *)
Definition Init (options : gmap string Option) (env : string) : Option :=
  let opt := default zeroOption (options !! env) in
  {| Name := Name opt;
     Operators := Operators opt;
     Environment := env;
     OperatorSet :=
       foldl (fun (m : gmap string bool) operator => <[operator := true]> m)
             ∅ (Operators opt) |}.

(** Indexing a Go [map[string]bool]: a missing key reads [false]. *)
Definition index (m : gmap string bool) (k : string) : bool :=
  default false (m !! k).

End configs.

(** ** Package [models] *)

Definition userRoleAdmin : string := "admin".
Definition userRoleMember : string := "member".

(** [userFromRows] and [sessionFromRows]: [Scan] leaves the zero value
    when it fails, and the pointer returned is never [nil]. *)
Definition userFromRows (row : sql.Row User) : option User * option error :=
  match row with
  | sql.RowOf u => (Some u, None)
  | sql.NoRows => (Some zeroUser, Some ErrNoRows)
  | sql.Failed msg => (Some zeroUser, Some (DriverError msg))
  end.

Definition sessionFromRows (row : sql.Row Session) : option Session * option error :=
  match row with
  | sql.RowOf s => (Some s, None)
  | sql.NoRows => (Some zeroSession, Some ErrNoRows)
  | sql.Failed msg => (Some zeroSession, Some (DriverError msg))
  end.

(** [Role], with [configs.AppConfig] passed as [cfg]. *)
Definition Role (cfg : configs.Option) (u : User) : string :=
  if configs.index (configs.OperatorSet cfg) (String_ (Email u))
  then userRoleAdmin else userRoleMember.

Definition isAdmin (cfg : configs.Option) (u : User) : bool :=
  String.eqb (Role cfg u) userRoleAdmin.

Section Models.
Context `{Externals}.

Definition isECDSA (k : PublicKey) : bool :=
  match k with ECDSAPublicKey _ => true | _ => false end.

Definition validateAndEncryptPassword (password : string) : string * option error :=
  if strings.len password <? 8 then (password, Some PasswordTooSimpleError)
  else if strings.len password >? 64 then (password, Some BadDataError)
  else match bcrypt_GenerateFromPassword password 10 with
       | None => (password, Some (ServerError BcryptError))
       | Some hashedPassword => (hashedPassword, None)
       end.

Definition findUserByID (id : string) : M (option User * option error) :=
  match snd (uuid_FromString id) with
  | Some _ => ret (None, None)
  | None =>
      row <- sql.QueryRow (SelectUserByID id) (sql.userByID id);
      let '(u, err) := userFromRows row in
      match err with
      | Some ErrNoRows => ret (None, None)
      | _ => ret (u, err)
      end
  end.

Definition findUserByIdentity (identity : string) : M (option User * option error) :=
  row <- sql.QueryRow (SelectUserByIdentity identity) (sql.userByIdentity identity);
  let '(user, err) := userFromRows row in
  match err with
  | Some ErrNoRows => ret (None, None)
  | Some e => ret (None, Some e)
  | None => ret (user, None)
  end.

Definition isNilUUID (s : string) : bool :=
  String.eqb (uuid.String (fst (uuid_FromString s))) (uuid.String uuid.Nil).

Definition readSession (uid sid : string) : M (option Session * option error) :=
  if isNilUUID uid then ret (None, None)
  else if isNilUUID sid then ret (None, None)
  else
    row <- sql.QueryRow (SelectSession uid sid) (sql.sessionByIDs uid sid);
    let '(s, err) := sessionFromRows row in
    match err with
    | Some ErrNoRows => ret (None, None)
    | _ => ret (s, err)
    end.

Definition addSession (user : User) (secret : string)
  : M (option Session * option error) :=
  id <- uuid_Must_NewV4;
  t <- time_Now;
  let s := {| sSessionID := uuid.String id; sUserID := UserID user;
              Secret := secret; sCreatedAt := t |} in
  err <- sql.InsertIntoSessions s;
  match err with
  | Some e => ret (None, Some (TransactionError e))
  | None => ret (Some s, None)
  end.

(** [CreateUser]; the transaction's closure assigns [user.SessionID]. *)
Definition CreateUser (email username nickname biography password sessionSecret : string)
  : M (option User * option error) :=
  match hex.DecodeString sessionSecret with
  | None => ret (None, Some BadDataError)
  | Some data =>
  match x509_ParsePKIXPublicKey data with
  | None => ret (None, Some BadDataError)
  | Some public =>
  if negb (isECDSA public) then ret (None, Some BadDataError) else
  let email := strings.TrimSpace email in
  match validateEmailFormat email with
  | Some err => ret (None, Some err)
  | None =>
  let username := strings.TrimSpace username in
  if strings.len username <? 3 then ret (None, Some BadDataError) else
  let nickname := strings.TrimSpace nickname in
  let nickname := if String.eqb nickname "" then username else nickname in
  match validateAndEncryptPassword password with
  | (_, Some err) => ret (None, Some err)
  | (password, None) =>
      t <- time_Now;
      id <- uuid_Must_NewV4;
      let user :=
        {| UserID := uuid.String id;
           Email := {| String_ := email; Valid := true |};
           Username := username;
           Nickname := nickname;
           Biography := biography;
           EncryptedPassword := {| String_ := password; Valid := true |};
           GithubID := nullString;
           GroupsCount := 0;
           CreatedAt := t;
           UpdatedAt := t;
           SessionID := "";
           isNew := false |} in
      '(user, err) <- RunInTransaction (
          err <- sql.InsertIntoUsers user;
          match err with
          | Some e => ret (user, Some e)
          | None =>
              '(s, err) <- addSession user sessionSecret;
              match err, s with
              | Some e, _ => ret (user, Some e)
              | None, Some s => ret (withSessionID user (sSessionID s), None)
              | None, None => panic
              end
          end);
      match err with
      | Some e =>
          if isSessionError e then ret (None, Some e)
          else ret (None, Some (TransactionError e))
      | None => ret (Some user, None)
      end
  end end end end.


(** The closure run in the transaction of [AuthenticateUser]; it
    assigns the captured [user] and [s]. *)
Definition resolveUserAndSession (uid sid : string)
  : M ((option User * option Session) * option error) :=
  '(u, err) <- findUserByID uid;
  match err, u with
  | Some e, _ => ret ((None, None), Some e)
  | None, None => ret ((None, None), None)
  | None, Some u =>
      '(s, err) <- readSession uid sid;
      match err, s with
      | Some e, _ => ret ((Some u, s), Some e)
      | None, None => ret ((Some u, None), None)
      | None, Some s' => ret ((Some (withSessionID u (sSessionID s')), s), None)
      end
  end.

(** The key function [AuthenticateUser] gives to [jwt.Parse].  The
    claims of a parsed token are always [jwt.MapClaims].  Reading
    [s.Secret] of a [nil] session panics. *)
Definition authKeyFunc (token : Token)
  : M (option User * (option PublicKey * option error)) :=
  match Method token with
  | SigningMethodECDSA _ =>
      let uid := Sprint (Claims token !! "uid") in
      let sid := Sprint (Claims token !! "sid") in
      '((user, s), err) <- RunInTransaction (resolveUserAndSession uid sid);
      match err with
      | Some e =>
          if isSessionError e then ret (user, (None, Some e))
          else ret (user, (None, Some (TransactionError e)))
      | None =>
          match s with
          | None => panic
          | Some s =>
              match hex.DecodeString (Secret s) with
              | None => ret (user, (None, Some HexError))
              | Some pkix =>
                  match x509_ParsePKIXPublicKey pkix with
                  | Some k => ret (user, (Some k, None))
                  | None => ret (user, (None, Some X509Error))
                  end
              end
          end
      end
  | _ => ret (None, (None, None))
  end.

Definition AuthenticateUser (tokenString : string) : M (option User * option error) :=
  '(user, (token, err)) <- jwt.Parse tokenString authKeyFunc None;
  match err, token with
  | Some _, _ => ret (None, None)
  | None, Some token => if negb (TokenValid token) then ret (None, None) else ret (user, None)
  | None, None => panic
  end.

Definition ReadUser (id : string) : M (option User * option error) :=
  '(user, err) <- RunInTransaction (findUserByID id);
  match err with
  | Some e =>
      if isSessionError e then ret (None, Some e)
      else ret (None, Some (TransactionError e))
  | None => ret (user, None)
  end.

Definition ReadUserByUsernameOrEmail (identity : string)
  : M (option User * option error) :=
  let identity := strings.ToLower (strings.TrimSpace identity) in
  if strings.len identity <? 3 then ret (None, None)
  else
    '(user, err) <- RunInTransaction (findUserByIdentity identity);
    match err with
    | Some e => ret (None, Some (TransactionError e))
    | None => ret (user, None)
    end.

Definition CreateSession (identity password sessionSecret : string)
  : M (option User * option error) :=
  match hex.DecodeString sessionSecret with
  | None => ret (None, Some BadDataError)
  | Some data =>
  match x509_ParsePKIXPublicKey data with
  | None => ret (None, Some BadDataError)
  | Some public =>
  if negb (isECDSA public) then ret (None, Some BadDataError) else
  '(user, err) <- ReadUserByUsernameOrEmail identity;
  match err, user with
  | Some e, _ => ret (None, Some e)
  | None, None => ret (None, Some IdentityNonExistError)
  | None, Some user =>
      if negb (bcrypt_CompareHashAndPassword (String_ (EncryptedPassword user)) password)
      then ret (None, Some InvalidPasswordError)
      else
        '(user, err) <- RunInTransaction (
            '(s, err) <- addSession user sessionSecret;
            match err, s with
            | Some e, _ => ret (user, Some e)
            | None, Some s => ret (withSessionID user (sSessionID s), None)
            | None, None => panic
            end);
        match err with
        | Some e => ret (None, Some (TransactionError e))
        | None => ret (Some user, None)
        end
  end end end.

End Models.

(** ** Package [models]: listing, names and permissions *)

From stdpp Require Import sorting.
Local Open Scope string_scope.
Local Open Scope Z_scope.

Module listing.

(** [ORDER BY created_at DESC]: [a] may stand before [b]. *)
Definition newerFirst (a b : User) : Prop := CreatedAt b <= CreatedAt a.

#[export] Instance newerFirst_dec (a b : User) : Decision (newerFirst a b) :=
  Z_le_dec (CreatedAt b) (CreatedAt a).

(** [SELECT ... FROM users WHERE created_at<$1 ORDER BY created_at DESC
    LIMIT 100].  Among rows of one creation time the engine may pick
    any order; the sort here keeps one. *)
Definition usersBefore (offset : Time) (rows : list User) : list User :=
  take 100 (merge_sort newerFirst (filter (fun r => CreatedAt r < offset) rows)).

(** The query of [ReadUsers] and the scan of its rows: a failure of
    the query, of a [Scan] or of the iteration is the left case.  The
    listing is not entered in [trace], which keeps the statements of
    the functions above. *)
Definition QueryUsersBefore (offset : Time) : M (string + list User) :=
  fun w =>
    let w' fs := {| users := users w; sessions := sessions w; faults := fs;
                    trace := trace w; now := now w; entropy := entropy w |} in
    match faults w with
    | Some msg :: fs => (Val (inl msg), w' fs)
    | None :: fs => (Val (inr (usersBefore offset (users w))), w' fs)
    | [] => (Val (inr (usersBefore offset (users w))), w)
    end.

End listing.

(** [time.Time.IsZero]: the zero time is the zero of [Time]. *)
Definition IsZero (t : Time) : bool := t =? 0.

(** [ReadUsers]; a [nil] slice is the empty list. *)
Definition ReadUsers (offset : Time) : M (list User * option error) :=
  offset <- (if IsZero offset then time_Now else ret offset);
  rows <- listing.QueryUsersBefore offset;
  match rows with
  | inl msg => ret ([], Some (TransactionError (DriverError msg)))
  | inr users => ret (users, None)
  end.

(** [Name] *)
Definition Name (u : User) : string :=
  if negb (String.eqb (Nickname u) "") then Nickname u else Username u.

(** [isPermit], with [configs.AppConfig] passed as [cfg]. *)
Definition isPermit (cfg : configs.Option) (userID : string) (user : User) : bool :=
  String.eqb userID (UserID user) || isAdmin cfg user.

(** The struct literals of [CreateUser] and [addSession]. *)
Definition newUser (email username nickname biography hashed : string)
    (id : uuid.UUID) (t : Time) : User :=
  {| UserID := uuid.String id;
     Email := {| String_ := email; Valid := true |};
     Username := username;
     Nickname := nickname;
     Biography := biography;
     EncryptedPassword := {| String_ := hashed; Valid := true |};
     GithubID := nullString;
     GroupsCount := 0;
     CreatedAt := t;
     UpdatedAt := t;
     SessionID := "";
     isNew := false |}.

Definition newSession (id : uuid.UUID) (userID secret : string) (t : Time) : Session :=
  {| sSessionID := uuid.String id; sUserID := userID; Secret := secret;
     sCreatedAt := t |}.

(** The nickname [CreateUser] stores. *)
Definition nicknameOr (nickname username : string) : string :=
  if String.eqb (strings.TrimSpace nickname) "" then username
  else strings.TrimSpace nickname.

(** A string of hexadecimal digits only. *)
Fixpoint allHex (s : string) : bool :=
  match s with
  | String c rest => bool_decide (is_Some (hex.fromHexChar c)) && allHex rest
  | EmptyString => true
  end.


(** ** A small instance of [Externals]

    Stand-ins that compute, for running the models on concrete inputs.
    A key blob is recognised by its first two bytes (those of the DER
    encodings: 30 59 for a P-256 key, 30 82 for an RSA key, 30 2a for an
    Ed25519 key).  A token is written [alg.uid.sid.signature], and a
    signature verifies when it repeats the key's last byte as a
    character followed by the signing string [alg.uid.sid].  A password
    hash is the password behind the prefix of a bcrypt hash of cost 10.
    UUIDs are read in canonical form only. *)

Module Reference.

Definition ParsePKIXPublicKey (der : list Z) : option PublicKey :=
  match der with
  | 48 :: 89 :: _ => Some (ECDSAPublicKey der)
  | 48 :: 130 :: _ => Some (RSAPublicKey der)
  | 48 :: 42 :: _ => Some (Ed25519PublicKey der)
  | _ => None
  end.

(** Split at the first dot. *)
Fixpoint cut (s : string) : string * option string :=
  match s with
  | EmptyString => (EmptyString, None)
  | String c rest =>
      if (strings.code c =? 46) then (EmptyString, Some rest)
      else let '(a, b) := cut rest in (String c a, b)
  end.

Definition methodOf (alg : string) : option SigningMethod :=
  if String.eqb alg "none" then Some SigningMethodNone
  else match alg with
       | String "E" (String "S" _) => Some (SigningMethodECDSA alg)
       | String "H" (String "S" _) => Some (SigningMethodHMAC alg)
       | String "R" (String "S" _) => Some (SigningMethodRSA alg)
       | String "P" (String "S" _) => Some (SigningMethodRSAPSS alg)
       | _ => None
       end.

Definition ParseUnverified (tokenString : string) : option Token :=
  match cut tokenString with
  | (alg, Some r1) =>
      match cut r1 with
      | (uid, Some r2) =>
          match cut r2 with
          | (sid, Some sig) =>
              match methodOf alg with
              | Some m =>
                  Some {| Method := m;
                          Claims := <["uid" := JString uid]>
                                      (<["sid" := JString sid]> ∅);
                          SigningString := alg ++ "." ++ uid ++ "." ++ sid;
                          Signature := sig;
                          TokenValid := false |}
              | None => None
              end
          | _ => None
          end
      | _ => None
      end
  | _ => None
  end.

Definition keyMark (k : list Z) : string :=
  String (ascii_of_nat (Z.to_nat (default 0 (last k)))) EmptyString.

Definition Verify (alg : string) (k : list Z) (signingString signature : string) : bool :=
  String.eqb signature (keyMark k ++ signingString).

Definition bcryptPrefix : string := "$2a$10$".

Definition GenerateFromPassword (password : string) (cost : Z) : option string :=
  Some (bcryptPrefix ++ password).

Definition CompareHashAndPassword (hash password : string) : bool :=
  String.eqb hash (bcryptPrefix ++ password).

(** Canonical form: 36 characters, dashes at 8, 13, 18 and 23. *)
Fixpoint canonical (s : string) (i : nat) (acc : N) : option N :=
  match s with
  | EmptyString => if (i =? 36)%nat then Some acc else None
  | String c rest =>
      if ((i =? 8) || (i =? 13) || (i =? 18) || (i =? 23))%nat
      then if (strings.code c =? 45) then canonical rest (S i) acc else None
      else match hex.fromHexChar c with
           | Some d => canonical rest (S i) (acc * 16 + Z.to_N d)%N
           | None => None
           end
  end.

Definition FromString (s : string) : uuid.UUID * option error :=
  match canonical s 0 0%N with
  | Some u => (u, None)
  | None => (uuid.Nil, Some BadDataError)
  end.

Fixpoint hasAt (s : string) : bool :=
  match s with
  | EmptyString => false
  | String c rest => (strings.code c =? 64) || hasAt rest
  end.

Definition emailFormat (email : string) : option error :=
  if hasAt email then None else Some (InvalidEmailFormatError email).

Definition externals : Externals := {|
  x509_ParsePKIXPublicKey := ParsePKIXPublicKey;
  jwt_ParseUnverified := ParseUnverified;
  jwt_ClaimsValid := fun _ _ => true;
  ecdsa_Verify := Verify;
  rsa_Verify := Verify;
  bcrypt_GenerateFromPassword := GenerateFromPassword;
  bcrypt_CompareHashAndPassword := CompareHashAndPassword;
  uuid_FromString := FromString;
  validateEmailFormat := emailFormat
|}.

(** A P-256 key blob (its first and last bytes) in hexadecimal, and an
    RSA one. *)
Definition ecSecret : string := "3059301306072a8648ce3d02014b".
Definition rsaSecret : string := "30820122300d06092a864886f70d".

Definition emptyWorld : World :=
  {| users := []; sessions := []; faults := []; trace := []; now := 1000;
     entropy := [1%N; 2%N; 3%N; 4%N] |}.

(** The world after alice registered in lower case. *)
Definition registered : World :=
  Eval vm_compute in
    snd (@CreateUser externals "bob@example.com" "alice1" "" "bio" "password"
           ecSecret emptyWorld).

(** The world after a registration that spells the username and the
    email with capitals. *)
Definition capitals : World :=
  Eval vm_compute in
    snd (@CreateUser externals "Bob@Example.com" "Alice1" "" "bio" "password"
           ecSecret emptyWorld).

Definition aliceID : string := "00000000-0000-0000-0000-000000000001".
Definition aliceSession : string := "00000000-0000-0000-0000-000000000002".

(** A token for alice's session, signed with the session's key, and
    the same claims under the HMAC family. *)
Definition aliceToken : string :=
  "ES256." ++ aliceID ++ "." ++ aliceSession ++ ".K" ++
  "ES256." ++ aliceID ++ "." ++ aliceSession.
Definition hmacToken : string :=
  "HS256." ++ aliceID ++ "." ++ aliceSession ++ ".K" ++
  "HS256." ++ aliceID ++ "." ++ aliceSession.

(** [registered] behind a connection that refuses the next statement. *)
Definition unreachable : World :=
  {| users := users registered; sessions := sessions registered;
     faults := [Some "connection refused"]; trace := trace registered;
     now := now registered; entropy := entropy registered |}.

(** Alice as a verification returns her, and the world after one
    verification of her token. *)
Definition alice : User :=
  {| UserID := aliceID;
     Email := {| String_ := "bob@example.com"; Valid := true |};
     Username := "alice1"; Nickname := "alice1"; Biography := "bio";
     EncryptedPassword := {| String_ := "$2a$10$password"; Valid := true |};
     GithubID := nullString; GroupsCount := 0; CreatedAt := 1000;
     UpdatedAt := 1000; SessionID := aliceSession; isNew := false |}.

Definition verifiedOnce : World :=
  Eval vm_compute in snd (@AuthenticateUser externals aliceToken registered).

End Reference.

(** * Properties *)

(** ** Role resolution *)

Lemma index_insert_true (m : gmap string bool) (o k : string) :
  configs.index (<[o := true]> m) k = true <-> o = k \/ configs.index m k = true.
Proof.
  unfold configs.index. rewrite lookup_insert. case_decide as Hok; simpl.
  - split; [intros _; by left | done].
  - split; [intros Hm; by right | intros [Heq | Hm]; [congruence | done]].
Qed.

Lemma index_foldl_operators (l : list string) (m0 : gmap string bool) (k : string) :
  configs.index
    (foldl (fun (m : gmap string bool) operator => <[operator := true]> m) m0 l) k
  = true <-> k ∈ l \/ configs.index m0 k = true.
Proof.
  revert m0. induction l as [| o l IH]; intros m0; simpl.
  - split; [intros Hm; by right | intros [Hin | Hm]; [by inversion Hin | done]].
  - rewrite IH, index_insert_true, elem_of_cons. intuition (subst; auto).
Qed.

Lemma OperatorSet_Init (options : gmap string configs.Option) (env k : string) :
  configs.index (configs.OperatorSet (configs.Init options env)) k = true
  <-> k ∈ configs.Operators (default configs.zeroOption (options !! env)).
Proof.
  unfold configs.Init; simpl. rewrite index_foldl_operators.
  split; [intros [Hin | Hm]; [done | by unfold configs.index in Hm] | by left].
Qed.

(** C8: under the configuration that [Init] builds, [Role] answers
    admin exactly when the user's email string is one of the configured
    operators, and member exactly when it is not.  The email string of
    a user without email is the empty string, and the same membership
    test decides. *)
Theorem Role_admin_iff_operator (options : gmap string configs.Option)
    (env : string) (u : User) :
  let operators := configs.Operators (default configs.zeroOption (options !! env)) in
  (Role (configs.Init options env) u = userRoleAdmin
     <-> String_ (Email u) ∈ operators)
  /\ (Role (configs.Init options env) u = userRoleMember
     <-> String_ (Email u) ∉ operators).
Proof.
  intros operators. pose proof (OperatorSet_Init options env (String_ (Email u))) as Hset.
  fold operators in Hset. unfold Role.
  destruct (configs.index _ _) eqn:Hidx.
  - split; [by split; [intros _; apply Hset | ] |].
    split; [discriminate | intros Hnot; exfalso; apply Hnot, Hset; done].
  - assert (String_ (Email u) ∉ operators) as Hout.
    { intros Hin. apply Hset in Hin. discriminate. }
    split; [split; [discriminate | done] | done].
Qed.

(** ** Statements sent to storage *)

Arguments uuid.String : simpl never.

(** [w'] comes after [w]: statements were only added to the trace. *)
Definition after (w w' : World) : Prop :=
  exists sent, trace w' = (sent ++ trace w)%list.

(** Whatever [m] does, it only adds to the trace. *)
Definition talks {A} (m : M A) : Prop := forall w, after w (snd (m w)).

(** [m] always sends [st], and before any other statement. *)
Definition opensWith {A} (st : Statement) (m : M A) : Prop :=
  forall w, exists sent, trace (snd (m w)) = (sent ++ st :: trace w)%list.



Lemma after_setTables us ss w w' : after w w' -> after w (setTables us ss w').
Proof. done. Qed.




Lemma talks_RunInTransaction {A} (fn : M (A * option error)) :
  talks fn -> talks (RunInTransaction fn).
Proof.
  intros Hfn w. unfold RunInTransaction. specialize (Hfn w).
  destruct (fn w) as [[[a [e |]] |] w1]; simpl in *; done.
Qed.

Lemma send_trace st w : trace (snd (send st w)) = st :: trace w.
Proof. unfold send. by destruct (faults w). Qed.




Lemma opensWith_QueryRow {A} st (rows : World -> option A) :
  opensWith st (sql.QueryRow st rows).
Proof.
  intros w. exists []. unfold sql.QueryRow.
  pose proof (send_trace st w) as Hs.
  by destruct (send st w) as [[msg |] w1].
Qed.





(** ** Computations that leave the tables alone *)

Definition reads {A} (m : M A) : Prop :=
  forall w, users (snd (m w)) = users w /\ sessions (snd (m w)) = sessions w.

Lemma reads_ret {A} (a : A) : reads (ret a).
Proof. done. Qed.

Lemma reads_panic {A} : reads (@panic A).
Proof. done. Qed.

Lemma reads_bind {A B} (m : M A) (k : A -> M B) :
  reads m -> (forall a, reads (k a)) -> reads (bind m k).
Proof.
  intros Hm Hk w. unfold bind. destruct (Hm w) as [Hu Hs].
  destruct (m w) as [[a |] w1]; simpl in *; [| done].
  destruct (Hk a w1) as [Hu' Hs']. by rewrite Hu', Hs'.
Qed.

Lemma reads_RunInTransaction {A} (fn : M (A * option error)) :
  reads fn -> reads (RunInTransaction fn).
Proof.
  intros Hfn w. unfold RunInTransaction. specialize (Hfn w).
  destruct (fn w) as [[[a [e |]] |] w1]; simpl in *; done.
Qed.

Lemma send_tables st w :
  users (snd (send st w)) = users w /\ sessions (snd (send st w)) = sessions w.
Proof. unfold send. by destruct (faults w). Qed.

Lemma reads_QueryRow {A} st (rows : World -> option A) : reads (sql.QueryRow st rows).
Proof.
  intros w. unfold sql.QueryRow. pose proof (send_tables st w) as Hs.
  by destruct (send st w) as [[msg |] w1].
Qed.

Lemma reads_time_Now : reads time_Now.
Proof. done. Qed.

(** ** Storage that answers *)

(** The next [n] statements meet no fault. *)
Fixpoint quiet (n : nat) (fs : list (option string)) : Prop :=
  match n, fs with
  | O, _ | _, [] => True
  | S n', None :: fs' => quiet n' fs'
  | S _, Some _ :: _ => False
  end.

(** The world once [st] was sent. *)
Definition sent (st : Statement) (w : World) : World :=
  {| users := users w; sessions := sessions w; faults := tail (faults w);
     trace := st :: trace w; now := now w; entropy := entropy w |}.

Lemma send_quiet st w : quiet 1 (faults w) -> send st w = (None, sent st w).
Proof. unfold send, sent. by destruct (faults w) as [| [msg |] fs]. Qed.

Lemma send_None st w w' :
  send st w = (None, w') -> w' = sent st w /\ quiet 1 (faults w).
Proof.
  unfold send, sent. destruct (faults w) as [| [msg |] fs]; simpl; intros Heq;
    by simplify_eq.
Qed.

Lemma quiet_S n fs : quiet (S n) fs -> quiet 1 fs /\ quiet n (tail fs).
Proof. destruct fs as [| [msg |] fs]; simpl; [by destruct n | done | done]. Qed.

Lemma QueryRow_quiet {A} st (rows : World -> option A) w :
  quiet 1 (faults w) ->
  sql.QueryRow st rows w
  = (Val (match rows w with Some a => sql.RowOf a | None => sql.NoRows end),
     sent st w).
Proof. intros Hq. unfold sql.QueryRow. by rewrite send_quiet. Qed.

Lemma QueryRow_row {A} st (rows : World -> option A) w a w' :
  sql.QueryRow st rows w = (Val (sql.RowOf a), w') ->
  rows w = Some a /\ w' = sent st w /\ quiet 1 (faults w).
Proof.
  unfold sql.QueryRow. destruct (send st w) as [[msg |] w1] eqn:Hsend; [done |].
  apply send_None in Hsend as [-> Hq].
  destruct (rows w); intros Heq; by simplify_eq.
Qed.




Section Properties.
Context `{Externals}.

(** ** Validation before storage *)





(** The checks of [CreateUser] that come before the password. *)
Record wellFormedRegistration (email username sessionSecret : string) : Prop := {
  wf_hex : exists data k,
      hex.DecodeString sessionSecret = Some data
      /\ x509_ParsePKIXPublicKey data = Some k /\ isECDSA k = true;
  wf_email : validateEmailFormat (strings.TrimSpace email) = None;
  wf_username : 3 <= strings.len (strings.TrimSpace username)
}.



(** C2: a session secret that is not hexadecimal, or whose bytes are
    no PKIX public key, or whose key is not an ECDSA key, makes both
    [CreateUser] and [CreateSession] return [BadDataError], and the
    world is as before: nothing was sent to storage and no credential
    was looked at. *)
Theorem bad_session_secret_rejected
    (email username nickname biography identity password sessionSecret : string)
    (w : World) :
  hex.DecodeString sessionSecret = None
  \/ (exists data, hex.DecodeString sessionSecret = Some data
                   /\ x509_ParsePKIXPublicKey data = None)
  \/ (exists data k, hex.DecodeString sessionSecret = Some data
                     /\ x509_ParsePKIXPublicKey data = Some k
                     /\ isECDSA k = false) ->
  CreateUser email username nickname biography password sessionSecret w
    = (Val (None, Some BadDataError), w)
  /\ CreateSession identity password sessionSecret w
    = (Val (None, Some BadDataError), w).
Proof.
  unfold CreateUser, CreateSession.
  intros [Hhex | [(data & Hhex & Hkey) | (data & k & Hhex & Hkey & Hec)]].
  - by rewrite Hhex.
  - by rewrite Hhex, Hkey.
  - by rewrite Hhex, Hkey, Hec.
Qed.

(** ** Session lookup *)

(** C7: when the user id or the session id reads as the nil UUID,
    [readSession] returns no session and no error, and the world is as
    before: storage was not consulted. *)
Theorem readSession_nil_identifier (uid sid : string) (w : World) :
  fst (uuid_FromString uid) = uuid.Nil \/ fst (uuid_FromString sid) = uuid.Nil ->
  readSession uid sid w = (Val (None, None), w).
Proof.
  intros Hnil. unfold readSession, isNilUUID.
  destruct Hnil as [Hu | Hs].
  - by rewrite Hu, String.eqb_refl.
  - rewrite Hs, String.eqb_refl. by destruct (String.eqb _ _).
Qed.

(** ** Profile update *)


(** ** Token verification *)

(** C6: a token that does not parse, or whose signing method is not of
    the ECDSA family, gets the silent refusal, no user and no error,
    whatever its claims and signature; the world is as before. *)
Theorem AuthenticateUser_foreign_method (tokenString : string) (w : World) :
  (forall token, jwt_ParseUnverified tokenString = Some token ->
     forall alg, Method token <> SigningMethodECDSA alg) ->
  AuthenticateUser tokenString w = (Val (None, None), w).
Proof.
  intros Hmethod. unfold AuthenticateUser, jwt.Parse.
  destruct (jwt_ParseUnverified tokenString) as [token |]; [| done].
  specialize (Hmethod token eq_refl).
  unfold authKeyFunc.
  destruct (Method token) as [alg | alg | alg | alg |] eqn:Hm;
    [by destruct (Hmethod alg) | ..];
    unfold bind, ret, time_Now; simpl;
    try done; by destruct (jwt_ClaimsValid (Claims token) (now w)).
Qed.

(** ** Login *)


Lemma ReadUserByUsernameOrEmail_quiet (identity : string) (w : World) :
  let ident := strings.ToLower (strings.TrimSpace identity) in
  3 <= strings.len ident ->
  quiet 1 (faults w) ->
  ReadUserByUsernameOrEmail identity w
  = (Val (sql.userByIdentity ident w, None), sent (SelectUserByIdentity ident) w).
Proof.
  intros ident Hlen Hq. unfold ReadUserByUsernameOrEmail. fold ident.
  destruct (Z.ltb_spec (strings.len ident) 3); [lia |].
  unfold bind, RunInTransaction, findUserByIdentity, bind.
  rewrite QueryRow_quiet by done.
  by destruct (sql.userByIdentity ident w).
Qed.


(** ** Repeated verification *)

Lemma findUserByID_quiet (id : string) (w : World) :
  snd (uuid_FromString id) = None ->
  quiet 1 (faults w) ->
  findUserByID id w = (Val (sql.userByID id w, None), sent (SelectUserByID id) w).
Proof.
  intros Hid Hq. unfold findUserByID, bind. rewrite Hid, QueryRow_quiet by done.
  by destruct (sql.userByID id w).
Qed.

Lemma findUserByID_found (id : string) (w w' : World) (u : User) :
  findUserByID id w = (Val (Some u, None), w') ->
  snd (uuid_FromString id) = None /\ quiet 1 (faults w)
  /\ sql.userByID id w = Some u /\ w' = sent (SelectUserByID id) w.
Proof.
  unfold findUserByID, bind.
  destruct (snd (uuid_FromString id)); [done |].
  destruct (sql.QueryRow _ _ w) as [[[r | | msg] |] w1] eqn:Hrow; simpl; try done.
  apply QueryRow_row in Hrow as (Hr & -> & Hq).
  unfold ret. intros Heq. by simplify_eq.
Qed.

Lemma readSession_quiet (uid sid : string) (w : World) :
  isNilUUID uid = false -> isNilUUID sid = false ->
  quiet 1 (faults w) ->
  readSession uid sid w
  = (Val (sql.sessionByIDs uid sid w, None), sent (SelectSession uid sid) w).
Proof.
  intros Hu Hs Hq. unfold readSession, bind. rewrite Hu, Hs, QueryRow_quiet by done.
  by destruct (sql.sessionByIDs uid sid w).
Qed.

Lemma readSession_found (uid sid : string) (w w' : World) (s : Session) :
  readSession uid sid w = (Val (Some s, None), w') ->
  isNilUUID uid = false /\ isNilUUID sid = false /\ quiet 1 (faults w)
  /\ sql.sessionByIDs uid sid w = Some s /\ w' = sent (SelectSession uid sid) w.
Proof.
  unfold readSession, bind.
  destruct (isNilUUID uid); [done |]. destruct (isNilUUID sid); [done |].
  destruct (sql.QueryRow _ _ w) as [[[r | | msg] |] w1] eqn:Hrow; simpl; try done.
  apply QueryRow_row in Hrow as (Hr & -> & Hq).
  unfold ret. intros Heq. by simplify_eq.
Qed.

(** What makes a token verify as user [u] against the rows [us] and
    [ss] when the clock reads [t]. *)
Definition verifies (tokenString : string) (us : list User) (ss : list Session)
    (t : Time) (u : User) : Prop :=
  exists token alg u0 s pkix der,
    jwt_ParseUnverified tokenString = Some token
    /\ Method token = SigningMethodECDSA alg
    /\ let uid := Sprint (Claims token !! "uid") in
       let sid := Sprint (Claims token !! "sid") in
       snd (uuid_FromString uid) = None
       /\ isNilUUID uid = false /\ isNilUUID sid = false
       /\ find (fun r => String.eqb (UserID r) uid) us = Some u0
       /\ find (fun x => String.eqb (sUserID x) uid && String.eqb (sSessionID x) sid) ss
          = Some s
       /\ u = withSessionID u0 (sSessionID s)
       /\ hex.DecodeString (Secret s) = Some pkix
       /\ x509_ParsePKIXPublicKey pkix = Some (ECDSAPublicKey der)
       /\ ecdsa_Verify alg der (SigningString token) (Signature token) = true
       /\ jwt_ClaimsValid (Claims token) t = true.

Lemma resolveUserAndSession_found (uid sid : string) (w w' : World)
    (user : option User) (s : Session) :
  resolveUserAndSession uid sid w = (Val ((user, Some s), None), w') ->
  exists u0,
    snd (uuid_FromString uid) = None
    /\ isNilUUID uid = false /\ isNilUUID sid = false
    /\ quiet 2 (faults w)
    /\ sql.userByID uid w = Some u0 /\ sql.sessionByIDs uid sid w = Some s
    /\ user = Some (withSessionID u0 (sSessionID s))
    /\ w' = sent (SelectSession uid sid) (sent (SelectUserByID uid) w).
Proof.
  unfold resolveUserAndSession, bind, ret.
  destruct (findUserByID uid w) as [[[[u0 |] [e |]] |] w1] eqn:Hfind;
    lazy beta iota; try (intros ?; discriminate).
  apply findUserByID_found in Hfind as (Hid & Hq1 & Hu0 & ->).
  destruct (readSession uid sid _) as [[[[s' |] [e |]] |] w2] eqn:Hread;
    lazy beta iota; try (intros ?; discriminate).
  apply readSession_found in Hread as (Hn1 & Hn2 & Hq2 & Hs & ->).
  intros Heq. injection Heq as <- <- <-.
  exists u0. repeat (split; [assumption || reflexivity |]).
  split; [| by repeat split].
  unfold sent in Hq2. cbn [faults] in Hq2.
  by destruct (faults w) as [| [msg |] fs].
Qed.

Lemma resolveUserAndSession_quiet (uid sid : string) (w : World) (u0 : User) (s : Session) :
  snd (uuid_FromString uid) = None ->
  isNilUUID uid = false -> isNilUUID sid = false ->
  quiet 2 (faults w) ->
  sql.userByID uid w = Some u0 -> sql.sessionByIDs uid sid w = Some s ->
  resolveUserAndSession uid sid w
  = (Val ((Some (withSessionID u0 (sSessionID s)), Some s), None),
     sent (SelectSession uid sid) (sent (SelectUserByID uid) w)).
Proof.
  intros Hid Hn1 Hn2 Hq Hu0 Hs. apply quiet_S in Hq as [Hq1 Hq2].
  unfold resolveUserAndSession, bind.
  rewrite findUserByID_quiet, Hu0 by assumption.
  rewrite readSession_quiet by (assumption || exact Hq2).
  unfold sql.sessionByIDs in *. cbn [sessions sent] in *. by rewrite Hs.
Qed.

Lemma authKeyFunc_key (token : Token) (w w' : World) (user : option User)
    (k : PublicKey) :
  authKeyFunc token w = (Val (user, (Some k, None)), w') ->
  let uid := Sprint (Claims token !! "uid") in
  let sid := Sprint (Claims token !! "sid") in
  exists alg u0 s pkix,
    Method token = SigningMethodECDSA alg
    /\ snd (uuid_FromString uid) = None
    /\ isNilUUID uid = false /\ isNilUUID sid = false
    /\ quiet 2 (faults w)
    /\ sql.userByID uid w = Some u0 /\ sql.sessionByIDs uid sid w = Some s
    /\ user = Some (withSessionID u0 (sSessionID s))
    /\ hex.DecodeString (Secret s) = Some pkix
    /\ x509_ParsePKIXPublicKey pkix = Some k
    /\ w' = sent (SelectSession uid sid) (sent (SelectUserByID uid) w).
Proof.
  intros Hrun uid sid. unfold authKeyFunc in Hrun. fold uid sid in Hrun.
  unfold bind, RunInTransaction, ret, panic in Hrun.
  destruct (Method token) as [alg | | | |] eqn:Hm; try discriminate Hrun.
  destruct (resolveUserAndSession uid sid w) as [[[[ou os] [e |]] |] w1] eqn:Hres;
    [destruct (isSessionError e); discriminate Hrun | | discriminate Hrun].
  destruct os as [s |]; [| discriminate Hrun].
  apply resolveUserAndSession_found in Hres
    as (u0 & Hid & Hn1 & Hn2 & Hq & Hu0 & Hs & -> & ->).
  destruct (hex.DecodeString (Secret s)) as [pkix |] eqn:Hhex;
    [| discriminate Hrun].
  destruct (x509_ParsePKIXPublicKey pkix) as [k' |] eqn:Hkey;
    [| discriminate Hrun].
  injection Hrun as <- <- <-. exists alg, u0, s, pkix.
  repeat split; assumption || reflexivity.
Qed.

Lemma authKeyFunc_quiet (token : Token) (w : World) (alg : string) (u0 : User)
    (s : Session) (pkix : list Z) (k : PublicKey) :
  let uid := Sprint (Claims token !! "uid") in
  let sid := Sprint (Claims token !! "sid") in
  Method token = SigningMethodECDSA alg ->
  snd (uuid_FromString uid) = None ->
  isNilUUID uid = false -> isNilUUID sid = false ->
  quiet 2 (faults w) ->
  sql.userByID uid w = Some u0 -> sql.sessionByIDs uid sid w = Some s ->
  hex.DecodeString (Secret s) = Some pkix ->
  x509_ParsePKIXPublicKey pkix = Some k ->
  authKeyFunc token w
  = (Val (Some (withSessionID u0 (sSessionID s)), (Some k, None)),
     sent (SelectSession uid sid) (sent (SelectUserByID uid) w)).
Proof.
  intros uid sid Hm Hid Hn1 Hn2 Hq Hu0 Hs Hhex Hkey.
  unfold authKeyFunc. fold uid sid. rewrite Hm.
  unfold bind, RunInTransaction.
  rewrite (resolveUserAndSession_quiet uid sid w u0 s) by assumption.
  by rewrite Hhex, Hkey.
Qed.

Lemma Verify_accepts (m : SigningMethod) (signingString signature : string)
    (key : option PublicKey) :
  jwt.Verify m signingString signature key = None ->
  exists k, key = Some k.
Proof. destruct key as [k |]; [by exists k | by destruct m]. Qed.

Lemma AuthenticateUser_accepts (tokenString : string) (w w1 : World) (u : User) :
  AuthenticateUser tokenString w = (Val (Some u, None), w1) ->
  verifies tokenString (users w) (sessions w) (now w) u
  /\ quiet 2 (faults w)
  /\ users w1 = users w /\ sessions w1 = sessions w.
Proof.
  unfold AuthenticateUser, jwt.Parse, bind at 1.
  destruct (jwt_ParseUnverified tokenString) as [token |] eqn:Hparse;
    [| intros Hrun; discriminate Hrun].
  unfold bind at 1.
  destruct (authKeyFunc token w) as [[[user [key [e |]]] |] w0] eqn:Hkf;
    [intros Hrun; discriminate Hrun | | intros Hrun; discriminate Hrun].
  unfold bind, time_Now, ret. cbn [fst snd].
  destruct (jwt.Verify _ _ _ key) as [e |] eqn:Hverify;
    [intros Hrun; discriminate Hrun |].
  destruct (jwt_ClaimsValid _ _) eqn:Hclaims; [| intros Hrun; discriminate Hrun].
  destruct (Verify_accepts _ _ _ _ Hverify) as [k ->].
  apply authKeyFunc_key in Hkf
    as (alg & u0 & s & pkix & Hm & Hid & Hn1 & Hn2 & Hq & Hu0 & Hs & -> & Hhex
        & Hkey & ->).
  cbn [negb TokenValid jwt.markValid]. intros Heq. injection Heq as <- <-.
  rewrite Hm in Hverify. cbn [jwt.Verify] in Hverify.
  destruct k as [der | der | der | der]; try discriminate Hverify.
  destruct (ecdsa_Verify alg der _ _) eqn:Hsig; [| discriminate Hverify].
  split; [| by repeat split].
  exists token, alg, u0, s, pkix, der.
  repeat split; assumption || reflexivity.
Qed.

Lemma AuthenticateUser_runs (tokenString : string) (w : World) (u : User) :
  verifies tokenString (users w) (sessions w) (now w) u ->
  quiet 2 (faults w) ->
  exists w1,
    AuthenticateUser tokenString w = (Val (Some u, None), w1)
    /\ users w1 = users w /\ sessions w1 = sessions w.
Proof.
  intros (token & alg & u0 & s & pkix & der & Hparse & Hm & Hid & Hn1 & Hn2
          & Hu0 & Hs & -> & Hhex & Hkey & Hsig & Hclaims) Hq.
  eexists. unfold AuthenticateUser, jwt.Parse, bind at 1. rewrite Hparse.
  unfold bind at 1.
  rewrite (authKeyFunc_quiet token w alg u0 s pkix (ECDSAPublicKey der))
    by assumption.
  unfold bind, time_Now, ret. cbn [fst snd now sent].
  rewrite Hm. cbn [jwt.Verify]. rewrite Hsig, Hclaims.
  cbn [negb TokenValid jwt.markValid]. by repeat split.
Qed.

(** C9: when a token verifies as user [u], the verification has left
    both tables as they were, and verifying the token again, on any
    world with those tables whose storage answers the two lookups and
    at whose clock the claims still stand, yields the same [u] (same
    user id, same attached session id) and again leaves the tables as
    they were. *)
Theorem AuthenticateUser_twice (tokenString : string) (w w1 : World) (u : User) :
  AuthenticateUser tokenString w = (Val (Some u, None), w1) ->
  users w1 = users w /\ sessions w1 = sessions w
  /\ forall w2,
       users w2 = users w1 -> sessions w2 = sessions w1 ->
       quiet 2 (faults w2) ->
       (forall token, jwt_ParseUnverified tokenString = Some token ->
                      jwt_ClaimsValid (Claims token) (now w2) = true) ->
       exists w3,
         AuthenticateUser tokenString w2 = (Val (Some u, None), w3)
         /\ users w3 = users w2 /\ sessions w3 = sessions w2.
Proof.
  intros Hfirst.
  apply AuthenticateUser_accepts in Hfirst as (Hver & _ & Husers & Hsessions).
  split; [assumption |]. split; [assumption |].
  intros w2 Hu2 Hs2 Hq Hclock.
  apply AuthenticateUser_runs; [| assumption].
  rewrite Hu2, Hs2, Husers, Hsessions.
  destruct Hver as (token & alg & u0 & s & pkix & der & Hparse & Hm & Hrest).
  exists token, alg, u0, s, pkix, der.
  split; [assumption |]. split; [assumption |].
  destruct Hrest as (? & ? & ? & ? & ? & ? & ? & ? & ? & _).
  repeat (split; [assumption |]). by apply Hclock.
Qed.

(** [AuthenticateUser] has no path that returns an error: a call that
    returns gives [nil] for its error, whatever happened in storage. *)
Lemma AuthenticateUser_reports_nothing (tokenString : string) (w w1 : World)
    (user : option User) (err : option error) :
  AuthenticateUser tokenString w = (Val (user, err), w1) -> err = None.
Proof.
  unfold AuthenticateUser, bind, ret, panic.
  destruct (jwt.Parse _ _ _ w) as [[[user' [token [e |]]] |] w0];
    [| | intros Heq; discriminate Heq].
  - intros Heq. by injection Heq as <- <- <-.
  - destruct token as [token |]; [| intros Heq; discriminate Heq].
    destruct (negb (TokenValid token)); intros Heq; by injection Heq as <- <- <-.
Qed.

End Properties.

(** ** The properties at concrete inputs *)

Module Witness.
Import Reference.


Definition pw8 : string := "12345678".


Lemma bad_session_secret_rejected_witness :
  @CreateUser externals "bob@example.com" "alice1" "" "" pw8 rsaSecret emptyWorld
    = (Val (None, Some BadDataError), emptyWorld)
  /\ @CreateSession externals "alice1" pw8 rsaSecret emptyWorld
    = (Val (None, Some BadDataError), emptyWorld).
Proof.
  apply (@bad_session_secret_rejected externals).
  right; right.
  exists [48; 130; 1; 34; 48; 13; 6; 9; 42; 134; 72; 134; 247; 13],
    (RSAPublicKey [48; 130; 1; 34; 48; 13; 6; 9; 42; 134; 72; 134; 247; 13]).
  by vm_compute.
Defined.

Definition nilID : string := "00000000-0000-0000-0000-000000000000".
Definition id1 : string := "00000000-0000-0000-0000-000000000001".
Definition id2 : string := "00000000-0000-0000-0000-000000000002".

Lemma readSession_nil_identifier_witness :
  @readSession externals id1 nilID emptyWorld = (Val (None, None), emptyWorld).
Proof.
  apply (@readSession_nil_identifier externals id1 nilID emptyWorld).
  right. by vm_compute.
Defined.


Lemma AuthenticateUser_foreign_method_witness :
  @AuthenticateUser externals hmacToken registered = (Val (None, None), registered).
Proof.
  apply (@AuthenticateUser_foreign_method externals hmacToken registered).
  intros token Hparse alg Hmethod.
  vm_compute in Hparse. injection Hparse as <-. discriminate Hmethod.
Defined.

Lemma AuthenticateUser_twice_witness :
  @AuthenticateUser externals aliceToken registered = (Val (Some alice, None), verifiedOnce)
  /\ exists w3,
       @AuthenticateUser externals aliceToken verifiedOnce = (Val (Some alice, None), w3)
       /\ users w3 = users verifiedOnce /\ sessions w3 = sessions verifiedOnce.
Proof.
  assert (@AuthenticateUser externals aliceToken registered
          = (Val (Some alice, None), verifiedOnce)) as Hfirst by (by vm_compute).
  split; [exact Hfirst |].
  destruct (@AuthenticateUser_twice externals aliceToken registered verifiedOnce
              alice Hfirst) as (_ & _ & Hagain).
  apply Hagain; [reflexivity | reflexivity | by vm_compute | reflexivity].
Defined.


End Witness.

(** ** Where the code departs from its documentation *)

Module Defects.
Import Reference.

(** C1 (the code does otherwise): with the connection refusing the
    first lookup of the RESOLVE phase, [findUserByID] returns the
    driver's error and [ReadUser] hands it on as a transaction error,
    but [AuthenticateUser], for a token that verifies when storage
    answers, returns no user and no error: the fault is
    indistinguishable from a refusal. *)
Theorem AuthenticateUser_swallows_fault :
  fst (@findUserByID externals aliceID unreachable)
    = Val (Some zeroUser, Some (DriverError "connection refused"))
  /\ fst (@ReadUser externals aliceID unreachable)
    = Val (None, Some (TransactionError (DriverError "connection refused")))
  /\ fst (@AuthenticateUser externals aliceToken registered) = Val (Some alice, None)
  /\ fst (@AuthenticateUser externals aliceToken unreachable) = Val (None, None).
Proof. by vm_compute. Qed.

(** C4 (the code does otherwise): a registration with username
    [Alice1] and email [Bob@Example.com] succeeds and stores both as
    given; afterwards no spelling of either resolves to that user, not
    even the registered one, and a login with the registered username
    and password fails with [IdentityNonExistError]. *)
Theorem lookup_misses_capitals :
  (exists u,
     @CreateUser externals "Bob@Example.com" "Alice1" "" "bio" "password" ecSecret
       emptyWorld = (Val (Some u, None), capitals)
     /\ Username u = "Alice1" /\ String_ (Email u) = "Bob@Example.com")
  /\ fst (ReadUserByUsernameOrEmail "Alice1" capitals) = Val (None, None)
  /\ fst (ReadUserByUsernameOrEmail "alice1" capitals) = Val (None, None)
  /\ fst (ReadUserByUsernameOrEmail "ALICE1" capitals) = Val (None, None)
  /\ fst (ReadUserByUsernameOrEmail "Bob@Example.com" capitals)
    = Val (None, None)
  /\ fst (@CreateSession externals "Alice1" "password" ecSecret capitals)
    = Val (None, Some IdentityNonExistError).
Proof. split; [eexists; by vm_compute | by vm_compute]. Qed.

End Defects.

(** * Further properties of the models *)

Section Verification.
Context `{Externals}.

(** X1: [AuthenticateUser] returns a user only for a token that
    verifies against the stored session: the token parses with a method
    of the ECDSA family, its [uid] claim is the id of a stored user,
    its [uid] and [sid] claims name a stored session, the secret of
    that session decodes to an ECDSA key under which the token's
    signature verifies, and the claims are valid at the clock's
    reading; the user returned is that row with the session's id
    attached. *)
Theorem AuthenticateUser_sound (tokenString : string) (w w1 : World) (u : User) :
  AuthenticateUser tokenString w = (Val (Some u, None), w1) ->
  exists token alg row s pkix der,
    jwt_ParseUnverified tokenString = Some token
    /\ Method token = SigningMethodECDSA alg
    /\ row ∈ users w /\ s ∈ sessions w
    /\ UserID row = Sprint (Claims token !! "uid")
    /\ sUserID s = Sprint (Claims token !! "uid")
    /\ sSessionID s = Sprint (Claims token !! "sid")
    /\ u = withSessionID row (sSessionID s)
    /\ hex.DecodeString (Secret s) = Some pkix
    /\ x509_ParsePKIXPublicKey pkix = Some (ECDSAPublicKey der)
    /\ ecdsa_Verify alg der (SigningString token) (Signature token) = true
    /\ jwt_ClaimsValid (Claims token) (now w) = true.
Proof.
  intros Hrun. apply AuthenticateUser_accepts in Hrun as (Hver & _).
  destruct Hver as (token & alg & row & s & pkix & der & Hparse & Hm & Hid & Hn1
                    & Hn2 & Hrow & Hs & -> & Hhex & Hkey & Hsig & Hclaims).
  exists token, alg, row, s, pkix, der.
  apply find_some in Hrow as [Hrow Hrid]. apply find_some in Hs as [Hs Hsid].
  apply String.eqb_eq in Hrid. apply andb_true_iff in Hsid as [Hsu Hss].
  apply String.eqb_eq in Hsu, Hss.
  rewrite <- list_elem_of_In in Hrow. rewrite <- list_elem_of_In in Hs.
  repeat split; assumption || reflexivity.
Qed.

Lemma reads_findUserByID (id : string) : reads (findUserByID id).
Proof.
  unfold findUserByID. destruct (snd (uuid_FromString id)); [apply reads_ret |].
  apply reads_bind; [apply reads_QueryRow |].
  intros [u | | msg]; apply reads_ret.
Qed.

Lemma reads_readSession (uid sid : string) : reads (readSession uid sid).
Proof.
  unfold readSession.
  destruct (isNilUUID uid); [apply reads_ret |].
  destruct (isNilUUID sid); [apply reads_ret |].
  apply reads_bind; [apply reads_QueryRow |].
  intros [s | | msg]; apply reads_ret.
Qed.

Lemma reads_authKeyFunc (token : Token) : reads (authKeyFunc token).
Proof.
  unfold authKeyFunc. destruct (Method token); try apply reads_ret.
  apply reads_bind.
  - apply reads_RunInTransaction. unfold resolveUserAndSession.
    apply reads_bind; [apply reads_findUserByID |].
    intros [[u |] [e |]]; try apply reads_ret.
    apply reads_bind; [apply reads_readSession |].
    intros [[s |] [e |]]; apply reads_ret.
  - intros [[user s] [e |]].
    + destruct (isSessionError e); apply reads_ret.
    + destruct s as [s |]; [| apply reads_panic].
      destruct (hex.DecodeString (Secret s)) as [pkix |]; [| apply reads_ret].
      destruct (x509_ParsePKIXPublicKey pkix); apply reads_ret.
Qed.

Lemma reads_AuthenticateUser (tokenString : string) :
  reads (AuthenticateUser tokenString).
Proof.
  unfold AuthenticateUser. apply reads_bind.
  - unfold jwt.Parse.
    destruct (jwt_ParseUnverified tokenString) as [token |]; [| apply reads_ret].
    apply reads_bind; [apply reads_authKeyFunc |].
    intros [user [key [e |]]]; [apply reads_ret |].
    apply reads_bind; [apply reads_time_Now | intros t].
    destruct (jwt.Verify _ _ _ key); [apply reads_ret |].
    destruct (jwt_ClaimsValid _ t); apply reads_ret.
  - intros [user [[token |] [e |]]]; try apply reads_ret; [| apply reads_panic].
    destruct (negb (TokenValid token)); apply reads_ret.
Qed.

(** X2: a call of [AuthenticateUser] that returns never returns an
    error, whatever the token and whatever storage did: a faulting
    lookup, an undecodable stored secret and a bad signature all end
    in the same pair of [nil]s. *)
Theorem AuthenticateUser_error_is_nil (tokenString : string) (w w1 : World)
    (user : option User) (err : option error) :
  AuthenticateUser tokenString w = (Val (user, err), w1) ->
  err = None /\ users w1 = users w /\ sessions w1 = sessions w.
Proof.
  intros Hrun. split; [by eapply AuthenticateUser_reports_nothing |].
  pose proof (reads_AuthenticateUser tokenString w) as Hreads.
  by rewrite Hrun in Hreads.
Qed.

Lemma resolveUserAndSession_missing (uid sid : string) (w : World) :
  quiet 2 (faults w) ->
  snd (uuid_FromString uid) <> None
  \/ sql.userByID uid w = None
  \/ isNilUUID uid = true \/ isNilUUID sid = true
  \/ sql.sessionByIDs uid sid w = None ->
  exists user w',
    resolveUserAndSession uid sid w = (Val ((user, None), None), w').
Proof.
  intros Hq Hmissing. apply quiet_S in Hq as [Hq1 Hq2].
  unfold resolveUserAndSession, bind.
  destruct (snd (uuid_FromString uid)) as [e |] eqn:Hid.
  { unfold findUserByID. rewrite Hid. by eexists _, _. }
  rewrite findUserByID_quiet by assumption.
  destruct (sql.userByID uid w) as [u0 |] eqn:Hu0; [| by eexists _, _].
  destruct (isNilUUID uid) eqn:Hn1.
  { unfold readSession. rewrite Hn1. by eexists _, _. }
  destruct (isNilUUID sid) eqn:Hn2.
  { unfold readSession. rewrite Hn1, Hn2. by eexists _, _. }
  rewrite readSession_quiet by (assumption || exact Hq2).
  change (sql.sessionByIDs uid sid (sent (SelectUserByID uid) w))
    with (sql.sessionByIDs uid sid w).
  destruct (sql.sessionByIDs uid sid w) as [s |] eqn:Hs; [| by eexists _, _].
  destruct Hmissing as [Hm | [Hm | [Hm | [Hm | Hm]]]]; congruence.
Qed.

(** X3: for a token of the ECDSA family [AuthenticateUser] panics,
    instead of refusing, whenever storage answers and the lookups end
    without a session: the [uid] claim is no UUID, or names no user, or
    one of the two ids reads as the nil UUID, or the user has no such
    session.  The key function then reads [s.Secret] of a [nil]
    session. *)
Theorem AuthenticateUser_panics_without_session (tokenString : string)
    (token : Token) (alg : string) (w : World) :
  let uid := Sprint (Claims token !! "uid") in
  let sid := Sprint (Claims token !! "sid") in
  jwt_ParseUnverified tokenString = Some token ->
  Method token = SigningMethodECDSA alg ->
  quiet 2 (faults w) ->
  snd (uuid_FromString uid) <> None
  \/ sql.userByID uid w = None
  \/ isNilUUID uid = true \/ isNilUUID sid = true
  \/ sql.sessionByIDs uid sid w = None ->
  fst (AuthenticateUser tokenString w) = Panic.
Proof.
  intros uid sid Hparse Hm Hq Hmissing.
  destruct (resolveUserAndSession_missing uid sid w Hq Hmissing)
    as (user & w' & Hres).
  unfold AuthenticateUser, jwt.Parse, bind at 1. rewrite Hparse.
  unfold bind at 1, authKeyFunc. rewrite Hm. fold uid sid.
  unfold bind at 1, RunInTransaction. by rewrite Hres.
Qed.

(** X4: [ReadUser] keeps three outcomes apart.  An id that is no
    UUID gives no user and no error without a statement being sent; a
    failing statement gives a transaction error that wraps the
    driver's; and when storage answers the result is the row with that
    id, if any, and no error.  The tables are never changed. *)
Theorem ReadUser_outcomes (id : string) (w : World) :
  (snd (uuid_FromString id) <> None -> ReadUser id w = (Val (None, None), w))
  /\ (snd (uuid_FromString id) = None ->
      forall msg fs, faults w = Some msg :: fs ->
      fst (ReadUser id w) = Val (None, Some (TransactionError (DriverError msg))))
  /\ (snd (uuid_FromString id) = None -> quiet 1 (faults w) ->
      fst (ReadUser id w) = Val (sql.userByID id w, None))
  /\ users (snd (ReadUser id w)) = users w
  /\ sessions (snd (ReadUser id w)) = sessions w.
Proof.
  split; [| split; [| split]].
  - intros Hid. unfold ReadUser, bind, RunInTransaction, findUserByID.
    by destruct (snd (uuid_FromString id)).
  - intros Hid msg fs Hfault.
    unfold ReadUser, bind at 1, RunInTransaction, findUserByID. rewrite Hid.
    unfold bind, sql.QueryRow, send. by rewrite Hfault.
  - intros Hid Hq. unfold ReadUser, bind, RunInTransaction.
    by rewrite findUserByID_quiet by assumption.
  - assert (reads (ReadUser id)) as Hreads; [| apply Hreads].
    unfold ReadUser. apply reads_bind.
    + apply reads_RunInTransaction, reads_findUserByID.
    + intros [user [e |]]; [destruct (isSessionError e) |]; apply reads_ret.
Qed.

End Verification.

Section Identity.


End Identity.

Section Registration.
Context `{Externals}.

Lemma InsertIntoUsers_inv (u : User) (w w' : World) (e : option error) :
  sql.InsertIntoUsers u w = (Val e, w') ->
  (e = None /\ quiet 1 (faults w)
   /\ exists r, ddl.userRow u = Some r /\ ddl.userAccepted (users w) r = true
                /\ w' = setTables (users w ++ [r]) (sessions w) (sent (InsertUser u) w))
  \/ (e <> None /\ users w' = users w /\ sessions w' = sessions w).
Proof.
  unfold sql.InsertIntoUsers.
  pose proof (send_tables (InsertUser u) w) as [Hu Hs].
  destruct (send (InsertUser u) w) as [[msg |] w1] eqn:Hsend; cbn [snd] in *.
  { intros Heq. injection Heq as <- <-. by right. }
  apply send_None in Hsend as [-> Hq].
  destruct (ddl.userRow u) as [r |].
  2: { intros Heq. injection Heq as <- <-. by right. }
  destruct (ddl.userAccepted (users w) r) eqn:Hacc.
  2: { intros Heq. injection Heq as <- <-. by right. }
  intros Heq. injection Heq as <- <-. left.
  split; [reflexivity |]. split; [assumption |]. by exists r.
Qed.

Lemma InsertIntoSessions_inv (s : Session) (w w' : World) (e : option error) :
  sql.InsertIntoSessions s w = (Val e, w') ->
  (e = None /\ quiet 1 (faults w)
   /\ exists r, ddl.sessionRow s = Some r /\ ddl.sessionAccepted (sessions w) r = true
                /\ w' = setTables (users w) (sessions w ++ [r]) (sent (InsertSession s) w))
  \/ (e <> None /\ users w' = users w /\ sessions w' = sessions w).
Proof.
  unfold sql.InsertIntoSessions.
  pose proof (send_tables (InsertSession s) w) as [Hu Hs].
  destruct (send (InsertSession s) w) as [[msg |] w1] eqn:Hsend; cbn [snd] in *.
  { intros Heq. injection Heq as <- <-. by right. }
  apply send_None in Hsend as [-> Hq].
  destruct (ddl.sessionRow s) as [r |].
  2: { intros Heq. injection Heq as <- <-. by right. }
  destruct (ddl.sessionAccepted (sessions w) r) eqn:Hacc.
  2: { intros Heq. injection Heq as <- <-. by right. }
  intros Heq. injection Heq as <- <-. left.
  split; [reflexivity |]. split; [assumption |]. by exists r.
Qed.

(** What [addSession] did when it returned a session. *)
Lemma addSession_ok (user : User) (secret : string) (w w' : World) (s : Session) :
  addSession user secret w = (Val (Some s, None), w') ->
  exists id rest r,
    entropy w = id :: rest
    /\ s = newSession id (UserID user) secret (now w)
    /\ quiet 1 (faults w)
    /\ ddl.sessionRow s = Some r /\ ddl.sessionAccepted (sessions w) r = true
    /\ w' = setTables (users w) (sessions w ++ [r])
              (sent (InsertSession s) (setEntropy rest w)).
Proof.
  unfold addSession, bind at 1, uuid_Must_NewV4.
  destruct (entropy w) as [| id rest] eqn:Hent; [intros Heq; discriminate Heq |].
  unfold bind at 1, time_Now. cbn [now setEntropy]. unfold bind, ret.
  destruct (sql.InsertIntoSessions _ _) as [[[e |] |] w1] eqn:Hins;
    try (intros Heq; discriminate Heq).
  intros Heq. injection Heq as <- <-.
  apply InsertIntoSessions_inv in Hins as [(_ & Hq & r & Hrow & Hacc & ->) | (Hne & _)];
    [| done].
  exists id, rest, r. repeat split; assumption || reflexivity.
Qed.

(** When [addSession] returns no session, or an error, the tables are
    as before. *)
Lemma addSession_failed (user : User) (secret : string) (w w' : World)
    (s : option Session) (e : error) :
  addSession user secret w = (Val (s, Some e), w') ->
  s = None /\ users w' = users w /\ sessions w' = sessions w.
Proof.
  unfold addSession, bind at 1, uuid_Must_NewV4.
  destruct (entropy w) as [| id rest] eqn:Hent; [intros Heq; discriminate Heq |].
  unfold bind at 1, time_Now. cbn [now setEntropy]. unfold bind, ret.
  destruct (sql.InsertIntoSessions _ _) as [[[e' |] |] w1] eqn:Hins;
    try (intros Heq; discriminate Heq).
  intros Heq. injection Heq as <- <- <-.
  apply InsertIntoSessions_inv in Hins as [(Hnone & _) | (_ & Hu & Hs)];
    [discriminate Hnone |].
  by repeat split.
Qed.

(** What [CreateUser] did when it returned a user. *)
Lemma CreateUser_ok
    (email username nickname biography password sessionSecret : string)
    (w w' : World) (u : User) :
  CreateUser email username nickname biography password sessionSecret w
  = (Val (Some u, None), w') ->
  exists h id1 id2 rest urow srow,
    let user := newUser (strings.TrimSpace email) (strings.TrimSpace username)
                  (nicknameOr nickname (strings.TrimSpace username))
                  biography h id1 (now w) in
    let s := newSession id2 (UserID user) sessionSecret (now w) in
    wellFormedRegistration email username sessionSecret
    /\ validateAndEncryptPassword password = (h, None)
    /\ entropy w = id1 :: id2 :: rest
    /\ quiet 2 (faults w)
    /\ ddl.userRow user = Some urow
    /\ ddl.userAccepted (users w) urow = true
    /\ ddl.sessionRow s = Some srow
    /\ ddl.sessionAccepted (sessions w) srow = true
    /\ u = withSessionID user (uuid.String id2)
    /\ users w' = (users w ++ [urow])%list
    /\ sessions w' = (sessions w ++ [srow])%list.
Proof.
  unfold CreateUser.
  destruct (hex.DecodeString sessionSecret) as [data |] eqn:Hhex;
    [| intros Heq; discriminate Heq].
  destruct (x509_ParsePKIXPublicKey data) as [k |] eqn:Hkey;
    [| intros Heq; discriminate Heq].
  destruct (isECDSA k) eqn:Hec; cbn [negb]; [| intros Heq; discriminate Heq].
  destruct (validateEmailFormat (strings.TrimSpace email)) eqn:Hemail;
    [intros Heq; discriminate Heq |].
  destruct (Z.ltb_spec (strings.len (strings.TrimSpace username)) 3) as [Hshort | Hlong];
    [intros Heq; discriminate Heq |].
  destruct (validateAndEncryptPassword password) as [h [e |]] eqn:Hpw;
    [intros Heq; discriminate Heq |].
  unfold bind at 1, time_Now. unfold bind at 1, uuid_Must_NewV4.
  destruct (entropy w) as [| id1 ids] eqn:Hent; [intros Heq; discriminate Heq |].
  fold (nicknameOr nickname (strings.TrimSpace username)).
  fold (newUser (strings.TrimSpace email) (strings.TrimSpace username)
          (nicknameOr nickname (strings.TrimSpace username)) biography h id1 (now w)).
  set (user := newUser _ _ _ _ _ _ _).
  unfold bind at 1, RunInTransaction, bind at 1.
  destruct (sql.InsertIntoUsers user (setEntropy ids w)) as [[[e |] |] w1] eqn:Hins;
    unfold ret;
    [destruct (isSessionError e); intros Heq; discriminate Heq | |
     intros Heq; discriminate Heq].
  apply InsertIntoUsers_inv in Hins
    as [(_ & Hq1 & urow & Hurow & Hacc & ->) | (Hne & _)]; [| done].
  unfold bind at 1.
  destruct (addSession user sessionSecret _) as [[[[s |] [e |]] |] w2] eqn:Hadd;
    unfold panic;
    try (intros Heq; discriminate Heq);
    try (destruct (isSessionError e); intros Heq; discriminate Heq).
  apply addSession_ok in Hadd as (id2 & rest & srow & Hent2 & -> & Hq2 & Hsrow & Hsacc & ->).
  intros Heq. injection Heq as <- <-.
  cbn [entropy setTables sent setEntropy] in Hent2. subst ids.
  exists h, id1, id2, rest, urow, srow. cbn zeta.
  split. { split; [by exists data, k | assumption | assumption]. }
  split; [reflexivity |]. split; [reflexivity |].
  split.
  { cbn [faults setTables sent setEntropy] in Hq1, Hq2.
    by destruct (faults w) as [| [msg |] [| [msg' |] fs]]. }
  repeat split; assumption || reflexivity.
Qed.

(** *** What the tables keep of a registration *)

Lemma hexDigits_length (k : nat) (n : N) (acc : string) :
  String.length (uuid.hexDigits k n acc) = (k + String.length acc)%nat.
Proof.
  revert n acc. induction k as [| k IH]; intros n acc; [reflexivity |].
  cbn [uuid.hexDigits]. rewrite IH. cbn [String.length]. lia.
Qed.

Lemma uuid_String_length (u : uuid.UUID) : String.length (uuid.String u) = 36%nat.
Proof.
  unfold uuid.String.
  repeat (rewrite hexDigits_length; cbn [append String.length]).
  reflexivity.
Qed.

Lemma varchar_fits (n : nat) (s : string) :
  (String.length s <= n)%nat -> ddl.varchar n s = Some s.
Proof.
  intros Hlen. unfold ddl.varchar.
  by destruct (Nat.leb_spec (String.length s) n); [| lia].
Qed.

Lemma DecodeString_allHex (s : string) (data : list Z) :
  hex.DecodeString s = Some data -> allHex s = true.
Proof.
  remember (String.length s) as n eqn:Hn.
  revert s data Hn. induction (lt_wf n) as [n _ IH]. intros s data Hn.
  destruct s as [| a [| b rest]]; [done | done |].
  cbn [hex.DecodeString allHex].
  destruct (hex.fromHexChar a) as [h |]; [| done].
  destruct (hex.fromHexChar b) as [l |]; [| done].
  destruct (hex.DecodeString rest) as [bs |] eqn:Hrest; [| done].
  intros _. rewrite (IH (String.length rest)) with (data := bs);
    [| cbn [String.length] in Hn; lia | reflexivity | assumption].
  rewrite !bool_decide_eq_true_2 by (by eexists). reflexivity.
Qed.

Lemma allSpaces_allHex_empty (s : string) :
  ddl.allSpaces s = true -> allHex s = true -> s = "".
Proof.
  destruct s as [| c rest]; [done |]. cbn [ddl.allSpaces allHex].
  intros Hsp Hhex. apply andb_true_iff in Hsp as [Hsp _].
  apply andb_true_iff in Hhex as [Hhex _].
  apply bool_decide_eq_true in Hhex as [d Hd].
  apply Z.eqb_eq in Hsp. unfold hex.fromHexChar in Hd. rewrite Hsp in Hd.
  discriminate Hd.
Qed.

Lemma allHex_drop (n : nat) (s : string) : allHex s = true -> allHex (ddl.drop n s) = true.
Proof.
  revert s. induction n as [| n IH]; intros s; [by destruct s |].
  destruct s as [| c rest]; [done |]. cbn [allHex ddl.drop].
  intros Hhex. apply andb_true_iff in Hhex as [_ Hhex]. by apply IH.
Qed.

Lemma drop_empty (n : nat) (s : string) :
  ddl.drop n s = "" -> (String.length s <= n)%nat.
Proof.
  revert s. induction n as [| n IH]; intros s.
  - destruct s; [cbn; lia | done].
  - destruct s as [| c rest]; [cbn; lia |]. cbn [ddl.drop String.length].
    intros Hd. apply IH in Hd. lia.
Qed.

(** A value of hexadecimal digits is stored whole or not at all. *)
Lemma varchar_hex (n : nat) (s s' : string) (data : list Z) :
  hex.DecodeString s = Some data -> ddl.varchar n s = Some s' -> s' = s.
Proof.
  intros Hhex. apply DecodeString_allHex in Hhex. unfold ddl.varchar.
  destruct (Nat.leb_spec (String.length s) n) as [Hle | Hgt].
  { intros Heq. by injection Heq. }
  destruct (ddl.allSpaces (ddl.drop n s)) eqn:Hsp; [| done].
  apply allSpaces_allHex_empty in Hsp; [| by apply allHex_drop].
  apply drop_empty in Hsp. lia.
Qed.

Lemma find_app_new {A} (f : A -> bool) (l : list A) (r : A) :
  forallb (fun x => negb (f x)) l = true -> f r = true ->
  find f (l ++ [r]) = Some r.
Proof.
  intros Hold Hnew. induction l as [| x l IH]; cbn [app find].
  - by rewrite Hnew.
  - cbn [forallb] in Hold. apply andb_true_iff in Hold as [Hx Hold].
    apply negb_true_iff in Hx. rewrite Hx. by apply IH.
Qed.

Lemma userRow_UserID (u r : User) :
  ddl.userRow u = Some r -> (String.length (UserID u) <= 36)%nat ->
  UserID r = UserID u.
Proof.
  intros Hrow Hlen. unfold ddl.userRow in Hrow.
  rewrite (varchar_fits 36 (UserID u) Hlen) in Hrow. cbn [mbind option_bind] in Hrow.
  destruct (ddl.varcharNull 512 (Email u)); [| discriminate Hrow].
  destruct (ddl.varchar 64 (Username u)); [| discriminate Hrow].
  destruct (ddl.varchar 64 (Nickname u)); [| discriminate Hrow].
  destruct (ddl.varchar 2048 (Biography u)); [| discriminate Hrow].
  destruct (ddl.varcharNull 1024 (EncryptedPassword u)); [| discriminate Hrow].
  destruct (ddl.varcharNull 1024 (GithubID u)); [| discriminate Hrow].
  cbn [mbind option_bind] in Hrow. by injection Hrow as <-.
Qed.

Lemma sessionRow_fields (s r : Session) (data : list Z) :
  ddl.sessionRow s = Some r ->
  (String.length (sSessionID s) <= 36)%nat ->
  (String.length (sUserID s) <= 36)%nat ->
  hex.DecodeString (Secret s) = Some data ->
  r = s.
Proof.
  intros Hrow Hsid Huid Hhex. unfold ddl.sessionRow in Hrow.
  rewrite (varchar_fits 36 _ Hsid), (varchar_fits 36 _ Huid) in Hrow.
  cbn [mbind option_bind] in Hrow.
  destruct (ddl.varchar 1024 (Secret s)) as [secret |] eqn:Hsecret;
    [| discriminate Hrow].
  apply (varchar_hex _ _ _ _ Hhex) in Hsecret as ->.
  cbn [mbind option_bind] in Hrow. injection Hrow as <-. by destruct s.
Qed.

(** X6: registration and verification fit together.  After a
    successful [CreateUser], a token of the ECDSA family that carries
    the returned user id and session id, and whose signature verifies
    under the key of the submitted session secret, is accepted by
    [AuthenticateUser] on any world that holds the tables of the
    registration, provided storage answers the two lookups, the claims
    are valid at the clock's reading and the UUID parser reads the two
    ids as UUIDs other than nil.  The user returned is the stored row
    of the registration with the session id attached. *)
Theorem register_then_authenticate
    (email username nickname biography password sessionSecret : string)
    (w w' : World) (u : User)
    (tokenString : string) (token : Token) (alg : string) (der : list Z)
    (w2 : World) :
  CreateUser email username nickname biography password sessionSecret w
  = (Val (Some u, None), w') ->
  jwt_ParseUnverified tokenString = Some token ->
  Method token = SigningMethodECDSA alg ->
  Sprint (Claims token !! "uid") = UserID u ->
  Sprint (Claims token !! "sid") = SessionID u ->
  (exists data, hex.DecodeString sessionSecret = Some data
                /\ x509_ParsePKIXPublicKey data = Some (ECDSAPublicKey der)) ->
  ecdsa_Verify alg der (SigningString token) (Signature token) = true ->
  jwt_ClaimsValid (Claims token) (now w2) = true ->
  snd (uuid_FromString (UserID u)) = None ->
  isNilUUID (UserID u) = false -> isNilUUID (SessionID u) = false ->
  users w2 = users w' -> sessions w2 = sessions w' -> quiet 2 (faults w2) ->
  exists urow w3,
    ddl.userRow u = Some urow
    /\ AuthenticateUser tokenString w2
       = (Val (Some (withSessionID urow (SessionID u)), None), w3)
    /\ UserID urow = UserID u
    /\ users w3 = users w2 /\ sessions w3 = sessions w2.
Proof.
  intros Hreg Hparse Hm Huid Hsid (data & Hhex & Hkey) Hsig Hclaims Hid Hn1 Hn2
    Hu2 Hs2 Hq.
  apply CreateUser_ok in Hreg
    as (h & id1 & id2 & rest & urow & srow & _ & _ & _ & _ & Hurow & Hacc & Hsrow
        & Hsacc & -> & Husers & Hsessions).
  cbn [UserID SessionID withSessionID newUser] in *.
  set (user := newUser _ _ _ _ _ _ _) in *.
  assert (UserID urow = uuid.String id1) as Hrid.
  { apply (userRow_UserID user urow Hurow). cbn [UserID user newUser].
    by rewrite uuid_String_length. }
  assert (srow = newSession id2 (uuid.String id1) sessionSecret (now w)) as ->.
  { apply (sessionRow_fields _ _ data Hsrow); cbn [newSession sSessionID sUserID Secret];
      [by rewrite uuid_String_length | by rewrite uuid_String_length | assumption]. }
  exists urow. 
  destruct (AuthenticateUser_runs tokenString w2
              (withSessionID urow (uuid.String id2))) as (w3 & Hrun & Hu3 & Hs3).
  - exists token, alg, urow, (newSession id2 (uuid.String id1) sessionSecret (now w)),
      data, der.
    split; [assumption |]. split; [assumption |]. cbn zeta.
    rewrite Huid, Hsid, Hu2, Hs2, Husers, Hsessions.
    split; [assumption |]. split; [assumption |]. split; [assumption |].
    split.
    { apply find_app_new; [| by apply String.eqb_eq].
      unfold ddl.userAccepted in Hacc.
      apply andb_true_iff in Hacc as [_ Hacc].
      apply forallb_forall. intros x Hx.
      rewrite forallb_forall in Hacc. specialize (Hacc x Hx).
      rewrite !andb_true_iff in Hacc. destruct Hacc as (((Hpk & _) & _) & _).
      by rewrite <- Hrid. }
    split.
    { apply find_app_new.
      - unfold ddl.sessionAccepted in Hsacc.
        apply forallb_forall. intros x Hx.
        rewrite forallb_forall in Hsacc. specialize (Hsacc x Hx).
        cbn [newSession sSessionID] in Hsacc.
        apply negb_true_iff in Hsacc. apply negb_true_iff.
        rewrite Hsacc. apply andb_false_r.
      - cbn [newSession sUserID sSessionID]. by rewrite !String.eqb_refl. }
    repeat split; assumption || reflexivity.
  - assumption.
  - exists w3. repeat split; assumption.
Qed.

(** *** All or nothing *)

(** A transaction that does not commit leaves the tables alone. *)
Lemma RunInTransaction_outcome {A} (fn : M (A * option error)) (w : World) :
  (exists a w', fn w = (Val (a, None), w')
                /\ RunInTransaction fn w = (Val (a, None), w'))
  \/ ((forall a, fst (RunInTransaction fn w) <> Val (a, None))
      /\ users (snd (RunInTransaction fn w)) = users w
      /\ sessions (snd (RunInTransaction fn w)) = sessions w).
Proof.
  unfold RunInTransaction.
  destruct (fn w) as [[[a [e |]] |] w']; [right | left | right]; try done.
  by exists a, w'.
Qed.

Lemma CreateUser_failed
    (email username nickname biography password sessionSecret : string)
    (w w' : World) (r : Res (option User * option error)) :
  CreateUser email username nickname biography password sessionSecret w = (r, w') ->
  (forall u, r <> Val (Some u, None)) ->
  users w' = users w /\ sessions w' = sessions w.
Proof.
  unfold CreateUser.
  destruct (hex.DecodeString sessionSecret) as [data |];
    [| intros Heq; by injection Heq as <- <-].
  destruct (x509_ParsePKIXPublicKey data) as [k |];
    [| intros Heq; by injection Heq as <- <-].
  destruct (negb (isECDSA k)); [intros Heq; by injection Heq as <- <- |].
  destruct (validateEmailFormat (strings.TrimSpace email));
    [intros Heq; by injection Heq as <- <- |].
  destruct (strings.len (strings.TrimSpace username) <? 3);
    [intros Heq; by injection Heq as <- <- |].
  destruct (validateAndEncryptPassword password) as [h [e |]];
    [intros Heq; by injection Heq as <- <- |].
  unfold bind at 1, time_Now. unfold bind at 1, uuid_Must_NewV4.
  destruct (entropy w) as [| id1 ids]; [intros Heq; by injection Heq as <- <- |].
  unfold bind at 1.
  match goal with
  | |- context [RunInTransaction ?fn ?w0] =>
      destruct (RunInTransaction_outcome fn w0)
        as [(a & w1 & _ & Hrun) | (Hne & Hu & Hs)];
      [rewrite Hrun | destruct (RunInTransaction fn w0) as [[[a [e |]] |] w1]]
  end.
  - unfold ret. intros Heq. injection Heq as <- <-. intros Hne.
    by destruct (Hne a).
  - cbn [snd users sessions setEntropy] in Hu, Hs.
    destruct (isSessionError e); unfold ret; intros Heq; by injection Heq as <- <-.
  - by destruct (Hne a).
  - cbn [snd users sessions setEntropy] in Hu, Hs.
    intros Heq. by injection Heq as <- <-.
Qed.

(** X7: [CreateUser] is all or nothing.  When it returns a user, the
    tables have grown by exactly the row of that user and one session
    row that binds the submitted secret, unchanged, to the new user id
    under the returned session id; in every other outcome (an error or
    a panic) both tables are as they were, also when the user row had
    already been inserted in the transaction. *)
Theorem CreateUser_all_or_nothing
    (email username nickname biography password sessionSecret : string)
    (w w' : World) (r : Res (option User * option error)) :
  CreateUser email username nickname biography password sessionSecret w = (r, w') ->
  (forall u, r = Val (Some u, None) ->
     exists urow,
       ddl.userRow u = Some urow /\ UserID urow = UserID u
       /\ users w' = (users w ++ [urow])%list
       /\ sessions w'
          = (sessions w ++ [{| sSessionID := SessionID u; sUserID := UserID u;
                               Secret := sessionSecret;
                               sCreatedAt := now w |}])%list)
  /\ ((forall u, r <> Val (Some u, None)) ->
      users w' = users w /\ sessions w' = sessions w).
Proof.
  intros Hrun. split; [| by apply (CreateUser_failed _ _ _ _ _ _ _ _ _ Hrun)].
  intros u ->.
  apply CreateUser_ok in Hrun
    as (h & id1 & id2 & rest & urow & srow & [(data & k & Hhex & _) _ _] & _ & _ & _
        & Hurow & _ & Hsrow & _ & -> & Husers & Hsessions).
  cbn [UserID SessionID withSessionID newUser] in *.
  set (user := newUser _ _ _ _ _ _ _) in *.
  exists urow. split; [exact Hurow |].
  split.
  { apply (userRow_UserID user urow Hurow). cbn [UserID user newUser].
    by rewrite uuid_String_length. }
  split; [assumption |].
  rewrite Hsessions. f_equal. f_equal.
  apply (sessionRow_fields _ _ data Hsrow); cbn [newSession sSessionID sUserID Secret];
    [by rewrite uuid_String_length | by rewrite uuid_String_length | assumption].
Qed.

(** *** The user a registration returns *)

Lemma isSpace_32 (c : ascii) : strings.code c = 32 -> strings.isSpace c = true.
Proof. intros Hc. unfold strings.isSpace. rewrite Hc. reflexivity. Qed.

Lemma TrimRight_no_trailing_space (s : string) (n : nat) :
  ddl.allSpaces (ddl.drop n (strings.TrimRight s)) = true ->
  ddl.drop n (strings.TrimRight s) = "".
Proof.
  revert n. induction s as [| c rest IH]; intros n; [by destruct n |].
  cbn [strings.TrimRight].
  destruct (strings.TrimRight rest) as [| d t] eqn:Ht.
  - destruct (strings.isSpace c) eqn:Hc; [by destruct n |].
    destruct n as [| n]; [| by destruct n].
    cbn [ddl.drop ddl.allSpaces]. intros Hsp.
    apply andb_true_iff in Hsp as [Hsp _]. apply Z.eqb_eq, isSpace_32 in Hsp.
    congruence.
  - destruct n as [| n].
    + cbn [ddl.drop ddl.allSpaces]. intros Hsp.
      apply andb_true_iff in Hsp as [_ Hsp]. by apply (IH 0%nat) in Hsp.
    + cbn [ddl.drop]. apply IH.
Qed.

(** A trimmed value is stored whole or not at all. *)
Lemma varchar_trimmed (n : nat) (s s' : string) :
  ddl.varchar n (strings.TrimSpace s) = Some s' -> s' = strings.TrimSpace s.
Proof.
  unfold ddl.varchar, strings.TrimSpace.
  destruct (Nat.leb_spec (String.length (strings.TrimRight (strings.TrimLeft s))) n)
    as [Hle | Hgt].
  { intros Heq. by injection Heq. }
  destruct (ddl.allSpaces _) eqn:Hsp; [| done].
  apply TrimRight_no_trailing_space, drop_empty in Hsp. lia.
Qed.

Lemma userRow_Username (u r : User) :
  ddl.userRow u = Some r -> ddl.varchar 64 (Username u) = Some (Username r).
Proof.
  intros Hrow. unfold ddl.userRow in Hrow.
  destruct (ddl.varchar 36 (UserID u)); [| discriminate Hrow].
  cbn [mbind option_bind] in Hrow.
  destruct (ddl.varcharNull 512 (Email u)); [| discriminate Hrow].
  cbn [mbind option_bind] in Hrow.
  destruct (ddl.varchar 64 (Username u)); [| discriminate Hrow].
  destruct (ddl.varchar 64 (Nickname u)); [| discriminate Hrow].
  destruct (ddl.varchar 2048 (Biography u)); [| discriminate Hrow].
  destruct (ddl.varcharNull 1024 (EncryptedPassword u)); [| discriminate Hrow].
  destruct (ddl.varcharNull 1024 (GithubID u)); [| discriminate Hrow].
  cbn [mbind option_bind] in Hrow. by injection Hrow as <-.
Qed.

Lemma validateAndEncryptPassword_ok (password h : string) :
  validateAndEncryptPassword password = (h, None) ->
  8 <= strings.len password <= 64
  /\ bcrypt_GenerateFromPassword password 10 = Some h.
Proof.
  unfold validateAndEncryptPassword.
  destruct (Z.ltb_spec (strings.len password) 8); [done |].
  destruct (Z.gtb_spec (strings.len password) 64); [done |].
  destruct (bcrypt_GenerateFromPassword password 10) as [h' |]; [| done].
  intros Heq. injection Heq as <-. split; [lia | reflexivity].
Qed.




End Registration.

Section Login.
Context `{Externals}.







(** *** Login after registration *)

Lemma userRow_EncryptedPassword (u r : User) :
  ddl.userRow u = Some r ->
  ddl.varcharNull 1024 (EncryptedPassword u) = Some (EncryptedPassword r).
Proof.
  intros Hrow. unfold ddl.userRow in Hrow.
  destruct (ddl.varchar 36 (UserID u)); [| discriminate Hrow].
  cbn [mbind option_bind] in Hrow.
  destruct (ddl.varcharNull 512 (Email u)); [| discriminate Hrow].
  cbn [mbind option_bind] in Hrow.
  destruct (ddl.varchar 64 (Username u)); [| discriminate Hrow].
  destruct (ddl.varchar 64 (Nickname u)); [| discriminate Hrow].
  destruct (ddl.varchar 2048 (Biography u)); [| discriminate Hrow].
  destruct (ddl.varcharNull 1024 (EncryptedPassword u)); [| discriminate Hrow].
  destruct (ddl.varcharNull 1024 (GithubID u)); [| discriminate Hrow].
  cbn [mbind option_bind] in Hrow. by injection Hrow as <-.
Qed.

Lemma CreateSession_runs (identity password sessionSecret : string) (w : World)
    (row : User) (id : uuid.UUID) (rest : list uuid.UUID) (srow : Session) :
  let ident := strings.ToLower (strings.TrimSpace identity) in
  (exists data k, hex.DecodeString sessionSecret = Some data
                  /\ x509_ParsePKIXPublicKey data = Some k /\ isECDSA k = true) ->
  3 <= strings.len ident ->
  quiet 2 (faults w) ->
  sql.userByIdentity ident w = Some row ->
  bcrypt_CompareHashAndPassword (String_ (EncryptedPassword row)) password = true ->
  entropy w = id :: rest ->
  ddl.sessionRow (newSession id (UserID row) sessionSecret (now w)) = Some srow ->
  ddl.sessionAccepted (sessions w) srow = true ->
  exists w',
    CreateSession identity password sessionSecret w
    = (Val (Some (withSessionID row (uuid.String id)), None), w')
    /\ users w' = users w
    /\ sessions w' = (sessions w ++ [srow])%list.
Proof.
  intros ident (data & k & Hhex & Hkey & Hec) Hlen Hq Hrow Hpw Hent Hsrow Hsacc.
  apply quiet_S in Hq as [Hq1 Hq2].
  unfold CreateSession. rewrite Hhex, Hkey, Hec. cbn [negb].
  unfold bind at 1. rewrite ReadUserByUsernameOrEmail_quiet by assumption.
  fold ident. rewrite Hrow, Hpw. cbn [negb].
  unfold bind at 1, RunInTransaction, bind at 1, addSession, bind at 1,
    uuid_Must_NewV4.
  cbn [entropy sent]. rewrite Hent.
  unfold bind at 1, time_Now. cbn [now sent setEntropy].
  unfold bind at 1, sql.InsertIntoSessions.
  rewrite send_quiet by exact Hq2.
  fold (newSession id (UserID row) sessionSecret (now w)).
  rewrite Hsrow. cbn [sessions setEntropy sent]. rewrite Hsacc.
  unfold ret. eexists. split; [reflexivity |]. by split.
Qed.

(** X11: a login after a registration.  After a successful
    [CreateUser] whose username is in lower case, [CreateSession] with
    the same username and password and a well-formed secret of at most
    1024 bytes returns that user's row with a new session id, and adds
    one session row binding the new secret to the user, on any world
    that holds the tables of the registration, provided no earlier
    account has the username as its email, the hash bcrypt gave fits
    the password and the column, storage answers, and the random id
    drawn is not the id of a stored session. *)
Theorem register_then_login
    (email username nickname biography password secret secret2 : string)
    (w w1 w2 : World) (u : User) (id : uuid.UUID) (rest : list uuid.UUID) :
  CreateUser email username nickname biography password secret w
  = (Val (Some u, None), w1) ->
  strings.ToLower (Username u) = Username u ->
  Forall (fun r => ~ (Valid (Email r) = true /\ String_ (Email r) = Username u))
         (users w) ->
  (forall h, bcrypt_GenerateFromPassword password 10 = Some h ->
             (String.length h <= 1024)%nat
             /\ bcrypt_CompareHashAndPassword h password = true) ->
  (exists data k, hex.DecodeString secret2 = Some data
                  /\ x509_ParsePKIXPublicKey data = Some k /\ isECDSA k = true) ->
  (String.length secret2 <= 1024)%nat ->
  users w2 = users w1 -> sessions w2 = sessions w1 ->
  quiet 2 (faults w2) ->
  entropy w2 = id :: rest ->
  Forall (fun s => sSessionID s <> uuid.String id) (sessions w2) ->
  exists urow w3,
    CreateSession username password secret2 w2
    = (Val (Some (withSessionID urow (uuid.String id)), None), w3)
    /\ ddl.userRow u = Some urow /\ UserID urow = UserID u
    /\ users w3 = users w2
    /\ sessions w3
       = (sessions w2 ++ [newSession id (UserID u) secret2 (now w2)])%list.
Proof.
  intros Hreg Hlower Hmail Hbcrypt Hsecret2 Hlen2 Hu2 Hs2 Hq Hent Hfresh.
  apply CreateUser_ok in Hreg
    as (h & id1 & id2 & rest1 & urow & srow & [_ _ Hname] & Hpw & _ & _ & Hurow
        & Hacc & _ & _ & -> & Husers & _).
  cbn [UserID Username withSessionID newUser] in *.
  set (user := newUser _ _ _ _ _ _ _) in *.
  apply validateAndEncryptPassword_ok in Hpw as [_ Hh].
  destruct (Hbcrypt h Hh) as [Hhlen Hfits].
  assert (UserID urow = uuid.String id1) as Hrid.
  { apply (userRow_UserID user urow Hurow). cbn [UserID user newUser].
    by rewrite uuid_String_length. }
  assert (Username urow = strings.TrimSpace username) as Hrname.
  { pose proof (userRow_Username user urow Hurow) as Hn.
    cbn [Username user newUser] in Hn. by apply varchar_trimmed in Hn. }
  assert (String_ (EncryptedPassword urow) = h) as Hrpw.
  { pose proof (userRow_EncryptedPassword user urow Hurow) as Hp.
    cbn [EncryptedPassword user newUser] in Hp. unfold ddl.varcharNull in Hp.
    cbn [Valid String_] in Hp. rewrite (varchar_fits _ _ Hhlen) in Hp.
    by injection Hp as <-. }
  set (s2 := newSession id (uuid.String id1) secret2 (now w2)).
  assert (ddl.sessionRow s2 = Some s2) as Hs2row.
  { unfold ddl.sessionRow, s2. cbn [newSession sSessionID sUserID Secret sCreatedAt].
    rewrite !varchar_fits by (rewrite ?uuid_String_length; lia). reflexivity. }
  cbv zeta in Hlower.
  destruct (CreateSession_runs username password secret2 w2 urow id rest s2)
    as (w3 & Hrun & Hu3 & Hs3); cbv zeta; rewrite ?Hlower; try assumption.
  - unfold sql.userByIdentity. rewrite Hu2, Husers.
    apply find_app_new.
    + unfold ddl.userAccepted in Hacc. apply andb_true_iff in Hacc as [_ Hacc].
      rewrite forallb_forall in Hacc. apply forallb_forall. intros x Hx.
      specialize (Hacc x Hx). rewrite !andb_true_iff in Hacc.
      destruct Hacc as (_ & Huniq). apply negb_true_iff, String.eqb_neq in Huniq.
      apply negb_true_iff, orb_false_iff. split.
      * apply String.eqb_neq. intros Heq. apply Huniq. by rewrite Heq, Hrname.
      * rewrite Forall_forall in Hmail. rewrite <- list_elem_of_In in Hx.
        specialize (Hmail x Hx).
        destruct (Valid (Email x)) eqn:Hvalid; [| reflexivity]. cbn [andb].
        apply String.eqb_neq. intros Heq. apply Hmail.
        split; [reflexivity | exact Heq].
    + apply orb_true_iff. left. apply String.eqb_eq. exact Hrname.
  - by rewrite Hrpw.
  - by rewrite Hrid.
  - unfold ddl.sessionAccepted. apply forallb_forall. intros x Hx.
    rewrite Forall_forall in Hfresh. rewrite <- list_elem_of_In in Hx.
    specialize (Hfresh x Hx). apply negb_true_iff, String.eqb_neq. exact Hfresh.
  - exists urow, w3. split; [assumption |]. split; [exact Hurow |].
    split; [assumption |]. split; [assumption |]. by rewrite Hs3.
Qed.

End Login.

Section Permissions.

(** X12: [isPermit] grants a user id exactly to its owner and to the
    operators: under the configuration [Init] builds, it is true
    exactly when the id is the user's own or the user's email string is
    one of the configured operators. *)
Theorem isPermit_owner_or_operator (options : gmap string configs.Option)
    (env userID : string) (user : User) :
  isPermit (configs.Init options env) userID user = true
  <-> userID = UserID user
      \/ String_ (Email user)
           ∈ configs.Operators (default configs.zeroOption (options !! env)).
Proof.
  unfold isPermit, isAdmin, Role.
  rewrite orb_true_iff, String.eqb_eq, <- OperatorSet_Init.
  by destruct (configs.index _ _).
Qed.

(** X13: an environment that the configuration file does not name
    has no operators: under what [Init] builds for it every user is a
    member, and [isPermit] grants a user id to its owner only. *)
Theorem Init_unknown_environment (options : gmap string configs.Option)
    (env userID : string) (user : User) :
  options !! env = None ->
  configs.Environment (configs.Init options env) = env
  /\ Role (configs.Init options env) user = userRoleMember
  /\ isPermit (configs.Init options env) userID user
     = String.eqb userID (UserID user).
Proof.
  intros Hnone. unfold isPermit, isAdmin, Role, configs.Init. rewrite Hnone.
  cbn [default configs.zeroOption configs.Operators configs.OperatorSet
       configs.Environment foldl].
  unfold configs.index. rewrite lookup_empty. cbn [default].
  split; [reflexivity |]. split; [reflexivity |]. apply orb_false_r.
Qed.

End Permissions.

Section Listing.

#[local] Instance newerFirst_transitive : Transitive listing.newerFirst.
Proof. intros a b c. unfold listing.newerFirst. lia. Qed.

#[local] Instance newerFirst_total : Total listing.newerFirst.
Proof. intros a b. unfold listing.newerFirst. lia. Qed.

Lemma usersBefore_page (offset : Time) (rows : list User) :
  let page := listing.usersBefore offset rows in
  (length page <= 100)%nat
  /\ (forall u, u ∈ page -> u ∈ rows /\ CreatedAt u < offset)
  /\ StronglySorted listing.newerFirst page
  /\ (forall r, r ∈ rows -> CreatedAt r < offset -> r ∉ page ->
      length page = 100%nat /\ forall u, u ∈ page -> CreatedAt r <= CreatedAt u).
Proof.
  unfold listing.usersBefore.
  set (sorted := merge_sort listing.newerFirst
                   (filter (fun r => CreatedAt r < offset) rows)).
  assert (forall u, u ∈ sorted <-> CreatedAt u < offset /\ u ∈ rows) as Hin.
  { intros u. unfold sorted. by rewrite merge_sort_Permutation, list_elem_of_filter. }
  assert (StronglySorted listing.newerFirst sorted) as Hsorted
    by (apply StronglySorted_merge_sort; apply _).
  rewrite <- (take_drop 100 sorted) in Hsorted.
  cbv zeta. split; [| split; [| split]].
  - rewrite length_take. lia.
  - intros u Hu. apply subseteq_take, Hin in Hu. by destruct Hu.
  - by apply StronglySorted_app_1_l in Hsorted.
  - intros r Hr Hbefore Hout.
    assert (r ∈ drop 100 sorted) as Hdrop.
    { assert (r ∈ sorted) as Hs by (by apply Hin).
      rewrite <- (take_drop 100 sorted), elem_of_app in Hs.
      by destruct Hs. }
    split.
    + apply length_take_le.
      destruct (decide (100 <= length sorted)%nat) as [Hle | Hlt]; [assumption |].
      rewrite drop_ge in Hdrop by lia. by apply elem_of_nil in Hdrop.
    + intros u Hu.
      apply (StronglySorted_app_1_elem_of _ _ _ u r Hsorted Hu Hdrop).
Qed.

Lemma ReadUsers_inv (offset : Time) (w w' : World) (page : list User) :
  ReadUsers offset w = (Val (page, None), w') ->
  page = listing.usersBefore (if IsZero offset then now w else offset) (users w)
  /\ users w' = users w /\ sessions w' = sessions w.
Proof.
  unfold ReadUsers, bind at 1.
  assert ((if IsZero offset then time_Now else ret offset) w
          = (Val (if IsZero offset then now w else offset), w)) as ->
    by (by destruct (IsZero offset)).
  unfold bind, listing.QueryUsersBefore, ret.
  destruct (faults w) as [| [msg |] fs]; intros Heq;
    [| discriminate Heq |]; by injection Heq as <- <-.
Qed.

(** X14: a page of [ReadUsers].  When it returns without error, the
    page has at most 100 users, all of them stored rows created
    strictly before the cursor (the clock's reading when the cursor is
    the zero time), newest first; and a stored row created before the
    cursor is left out only when the page is full, and then no user of
    the page is older than it.  The tables are left as they were. *)
Theorem ReadUsers_page (offset : Time) (w w' : World) (page : list User) :
  ReadUsers offset w = (Val (page, None), w') ->
  let cursor := if IsZero offset then now w else offset in
  (length page <= 100)%nat
  /\ (forall u, u ∈ page -> u ∈ users w /\ CreatedAt u < cursor)
  /\ StronglySorted listing.newerFirst page
  /\ (forall r, r ∈ users w -> CreatedAt r < cursor -> r ∉ page ->
      length page = 100%nat /\ forall u, u ∈ page -> CreatedAt r <= CreatedAt u)
  /\ users w' = users w /\ sessions w' = sessions w.
Proof.
  intros Hrun cursor. apply ReadUsers_inv in Hrun as (-> & Hu & Hs).
  fold cursor.
  destruct (usersBefore_page cursor (users w)) as (Hlen & Hin & Hsorted & Hfull).
  split; [exact Hlen |]. split; [exact Hin |]. split; [exact Hsorted |].
  split; [exact Hfull |]. by split.
Qed.

(** X15: the next page.  When a page is read, and then another with
    the creation time of the first page's last user as cursor (not the
    zero time, which would start over from the clock), every user of
    the second page is strictly older than every user of the first, so
    the pages do not overlap; and a stored row before the first cursor
    that is in neither page, the second not being full, was created at
    the very instant of the second cursor. *)
Theorem ReadUsers_next_page (offset : Time) (w w1 w2 : World)
    (page1 page2 : list User) (c : User) :
  ReadUsers offset w = (Val (page1, None), w1) ->
  last page1 = Some c ->
  CreatedAt c <> 0 ->
  ReadUsers (CreatedAt c) w1 = (Val (page2, None), w2) ->
  (forall u1 u2, u1 ∈ page1 -> u2 ∈ page2 -> CreatedAt u2 < CreatedAt u1)
  /\ (forall r, r ∈ users w ->
        CreatedAt r < (if IsZero offset then now w else offset) ->
        r ∉ page1 -> r ∉ page2 -> (length page2 < 100)%nat ->
        CreatedAt r = CreatedAt c).
Proof.
  intros Hfirst Hlast Hnz Hnext.
  apply ReadUsers_page in Hfirst as (_ & _ & Hsorted1 & Hfull1 & Hu1 & _).
  apply ReadUsers_page in Hnext as (_ & Hin2 & _ & Hfull2 & _).
  assert (IsZero (CreatedAt c) = false) as Hz by (by apply Z.eqb_neq).
  rewrite Hz, Hu1 in Hin2, Hfull2.
  apply last_Some in Hlast as [front ->].
  assert (forall u1 : User, u1 ∈ (front ++ [c])%list -> CreatedAt c <= CreatedAt u1)
    as Hlow.
  { intros u1 Hu. apply elem_of_app in Hu as [Hu | Hu].
    - apply (StronglySorted_app_1_elem_of _ _ _ u1 c Hsorted1 Hu).
      apply list_elem_of_singleton. reflexivity.
    - apply list_elem_of_singleton in Hu as ->. lia. }
  split.
  - intros u1 u2 Hu1' Hu2. apply Hin2 in Hu2 as [_ Hu2].
    specialize (Hlow u1 Hu1'). lia.
  - intros r Hr Hbefore Hout1 Hout2 Hshort.
    destruct (Hfull1 r Hr Hbefore Hout1) as [_ Hold].
    assert (CreatedAt r <= CreatedAt c) as Hle.
    { apply Hold. apply elem_of_app. right. apply list_elem_of_singleton. reflexivity. }
    destruct (Z.eq_dec (CreatedAt r) (CreatedAt c)) as [Heq | Hne]; [assumption |].
    destruct (Hfull2 r Hr) as [Hlen _]; [lia | assumption | lia].
Qed.

End Listing.

Section Profile.



End Profile.

(** ** The further properties at concrete inputs *)

Module Runs.
Import Reference.

(** A token with alice's session id for a user id that is not stored. *)
Definition strangerID : string := "00000000-0000-0000-0000-000000000009".
Definition strangerToken : string :=
  "ES256." ++ strangerID ++ "." ++ aliceSession ++ ".K" ++
  "ES256." ++ strangerID ++ "." ++ aliceSession.

(** The stored row of alice. *)
Definition aliceRow : User := withSessionID alice "".

Lemma AuthenticateUser_sound_witness :
  exists token row s,
    ParseUnverified aliceToken = Some token
    /\ row ∈ users registered /\ s ∈ sessions registered
    /\ alice = withSessionID row (sSessionID s).
Proof.
  destruct (@AuthenticateUser_sound externals aliceToken registered verifiedOnce alice)
    as (token & alg & row & s & pkix & der & Hparse & _ & Hrow & Hs & _ & _ & _
        & Hu & _); [by vm_compute |].
  by exists token, row, s.
Defined.

Lemma AuthenticateUser_error_is_nil_witness :
  @AuthenticateUser externals aliceToken unreachable
  = (Val (None, None), sent (SelectUserByID aliceID) unreachable)
  /\ users (sent (SelectUserByID aliceID) unreachable) = users unreachable.
Proof.
  assert (@AuthenticateUser externals aliceToken unreachable
          = (Val (None, None), sent (SelectUserByID aliceID) unreachable)) as Hrun
    by (by vm_compute).
  split; [exact Hrun |].
  apply (@AuthenticateUser_error_is_nil externals aliceToken unreachable _ None None
           Hrun).
Defined.

Lemma AuthenticateUser_panics_without_session_witness :
  fst (@AuthenticateUser externals strangerToken registered) = Panic.
Proof.
  eapply (@AuthenticateUser_panics_without_session externals strangerToken _ "ES256"
            registered).
  - by vm_compute.
  - reflexivity.
  - by vm_compute.
  - right. left. by vm_compute.
Defined.

Lemma ReadUser_outcomes_witness :
  @ReadUser externals "alice" registered = (Val (None, None), registered)
  /\ fst (@ReadUser externals aliceID unreachable)
     = Val (None, Some (TransactionError (DriverError "connection refused")))
  /\ fst (@ReadUser externals aliceID registered) = Val (Some aliceRow, None).
Proof.
  split; [| split].
  - apply (@ReadUser_outcomes externals "alice" registered). by vm_compute.
  - apply (proj1 (proj2 (@ReadUser_outcomes externals aliceID unreachable))
             eq_refl "connection refused" []).
    reflexivity.
  - apply (proj1 (proj2 (proj2 (@ReadUser_outcomes externals aliceID registered)))
             eq_refl).
    by vm_compute.
Defined.


Definition keyBytes : list Z := [48; 89; 48; 19; 6; 7; 42; 134; 72; 206; 61; 2; 1; 75].

Definition aliceParsed : Token :=
  {| Method := SigningMethodECDSA "ES256";
     Claims := <["uid" := JString aliceID]> (<["sid" := JString aliceSession]> ∅);
     SigningString := "ES256." ++ aliceID ++ "." ++ aliceSession;
     Signature := "KES256." ++ aliceID ++ "." ++ aliceSession;
     TokenValid := false |}.

Lemma registration_run :
  @CreateUser externals "bob@example.com" "alice1" "" "bio" "password" ecSecret
    emptyWorld = (Val (Some alice, None), registered).
Proof. by vm_compute. Defined.

Lemma register_then_authenticate_witness :
  exists urow w3,
    @AuthenticateUser externals aliceToken registered
    = (Val (Some (withSessionID urow aliceSession), None), w3)
    /\ UserID urow = aliceID.
Proof.
  destruct (@register_then_authenticate externals "bob@example.com" "alice1" ""
               "bio" "password" ecSecret emptyWorld registered alice aliceToken
               aliceParsed "ES256" keyBytes registered registration_run)
    as (urow & w3 & _ & Hrun & Hid & _).
  - by vm_compute.
  - reflexivity.
  - by vm_compute.
  - by vm_compute.
  - exists keyBytes. by vm_compute.
  - by vm_compute.
  - reflexivity.
  - by vm_compute.
  - by vm_compute.
  - by vm_compute.
  - reflexivity.
  - reflexivity.
  - by vm_compute.
  - by exists urow, w3.
Defined.

Lemma CreateUser_all_or_nothing_witness :
  (exists urow, users registered = [urow])
  /\ users (snd (@CreateUser externals "carol@example.com" "alice1" "" "" "password"
                   ecSecret registered)) = users registered.
Proof.
  split.
  - destruct (proj1 (@CreateUser_all_or_nothing externals "bob@example.com" "alice1"
                       "" "bio" "password" ecSecret emptyWorld registered _
                       registration_run) alice eq_refl)
      as (urow & _ & _ & Husers & _).
    by exists urow.
  - apply (proj2 (@CreateUser_all_or_nothing externals "carol@example.com" "alice1"
                    "" "" "password" ecSecret registered _ _ eq_refl)).
    by vm_compute.
Defined.




Lemma register_then_login_witness :
  exists urow w3,
    @CreateSession externals "alice1" "password" ecSecret registered
    = (Val (Some (withSessionID urow "00000000-0000-0000-0000-000000000003"), None),
       w3)
    /\ UserID urow = aliceID.
Proof.
  edestruct (@register_then_login externals "bob@example.com" "alice1" "" "bio"
               "password" ecSecret ecSecret emptyWorld registered registered alice
               3%N [4%N] registration_run)
    as (urow & w3 & Hrun & _ & Hid & _).
  - reflexivity.
  - constructor.
  - intros h Hh. injection Hh as <-. split; [vm_compute; lia | reflexivity].
  - exists keyBytes, (ECDSAPublicKey keyBytes). by vm_compute.
  - vm_compute. lia.
  - reflexivity.
  - reflexivity.
  - by vm_compute.
  - reflexivity.
  - repeat constructor. by vm_compute.
  - by exists urow, w3.
Defined.

Lemma Init_unknown_environment_witness :
  Role (configs.Init ∅ "production") alice = userRoleMember.
Proof.
  apply (Init_unknown_environment ∅ "production" aliceID alice).
  apply lookup_empty.
Defined.

(** A table of 101 users, the [i]-th created at time [i]. *)
Definition rowAt (i : nat) : User :=
  {| UserID := uuid.String (N.of_nat i); Email := nullString;
     Username := "user"; Nickname := ""; Biography := "";
     EncryptedPassword := nullString; GithubID := nullString; GroupsCount := 0;
     CreatedAt := Z.of_nat i; UpdatedAt := Z.of_nat i; SessionID := "";
     isNew := false |}.

Definition crowd : World :=
  {| users := map rowAt (seq 1 101); sessions := []; faults := []; trace := [];
     now := 1000; entropy := [] |}.

Definition firstPage : list User := Eval vm_compute in fst (fst (
  match ReadUsers 0 crowd with
  | (Val r, w) => (r, w)
  | (Panic, w) => (([], None), w)
  end)).

Lemma firstPage_run : ReadUsers 0 crowd = (Val (firstPage, None), crowd).
Proof. by vm_compute. Defined.

Lemma ReadUsers_page_witness :
  length firstPage = 100%nat /\ CreatedAt (rowAt 1) <= CreatedAt (rowAt 2).
Proof.
  destruct (ReadUsers_page 0 crowd crowd firstPage firstPage_run)
    as (_ & _ & _ & Hfull & _).
  destruct (Hfull (rowAt 1)) as [Hlen Hold].
  - apply (list_elem_of_lookup_2 _ 0%nat). reflexivity.
  - by vm_compute.
  - intros Hin. apply (list_elem_of_fmap_2 CreatedAt) in Hin. revert Hin.
    apply (bool_decide_eq_false_1 (CreatedAt (rowAt 1) ∈ CreatedAt <$> firstPage)).
    by vm_compute.
  - split; [exact Hlen |]. apply Hold.
    apply (list_elem_of_lookup_2 _ 99%nat). reflexivity.
Defined.

Lemma ReadUsers_next_page_witness :
  CreatedAt (rowAt 1) < CreatedAt (rowAt 101).
Proof.
  apply (proj1 (ReadUsers_next_page 0 crowd crowd crowd firstPage [rowAt 1]
                  (rowAt 2) firstPage_run eq_refl ltac:(by vm_compute)
                  ltac:(by vm_compute))).
  - apply (list_elem_of_lookup_2 _ 0%nat). reflexivity.
  - apply (list_elem_of_lookup_2 _ 0%nat). reflexivity.
Defined.



End Runs.
